(** * haproxy-operator: the charm's reconciliation and certificate lifecycle

    A shallow embedding of [src/charm.py].  The charm is an object whose
    handlers read facts from their collaborators (relations, configuration,
    the certificate provider), set the unit status and call collaborators for
    their effects.  A handler is modelled as a function from the charm's state
    to an outcome that is either a normal return or a raised exception, both
    carrying the state reached: a Python exception does not undo the status
    updates and collaborator calls made before it. *)

From Stdlib Require Import String List Bool Arith Lia.
From Stdlib.Strings Require Import Byte.
Import ListNotations.
Local Open Scope string_scope.
Local Open Scope list_scope.

(** ** Data model *)

(** [class ProxyMode(StrEnum)]. *)
Inductive ProxyMode : Type :=
| INGRESS
| LEGACY
| NOPROXY
| INVALID.

(** The string value of each member of the enumeration. *)
Definition ProxyMode_value (m : ProxyMode) : string :=
  match m with
  | INGRESS => "ingress"
  | LEGACY => "legacy"
  | NOPROXY => "noproxy"
  | INVALID => "invalid"
  end.

(** [proxy_mode == ProxyMode.X]: members of a [StrEnum] compare by value. *)
Definition ProxyMode_eqb (a b : ProxyMode) : bool :=
  String.eqb (ProxyMode_value a) (ProxyMode_value b).

(** [ops.StatusBase]: the statuses a unit can show. *)
Inductive StatusBase : Type :=
| ActiveStatus (message : string)
| BlockedStatus (message : string)
| MaintenanceStatus (message : string)
| WaitingStatus (message : string)
| UnknownStatus.

(** The exceptions the handlers of [charm.py] can meet. *)
Inductive Exception : Type :=
| TLSNotReadyError (message : string)
| CharmConfigInvalidError (message : string)
| KeyError (key : string).

(** [ProviderCertificate] of the TLS certificates interface: the fields the
    charm reads. *)
Record ProviderCertificate : Type := mkProviderCertificate {
  csr : string;
  certificate : string;
  ca : string;
  chain : list string
}.

(** [TLSInformation]: the charm reads its [external_hostname]. *)
Record TLSInformation : Type := mkTLSInformation {
  external_hostname : string
}.

(** An [ops.Relation]. *)
Record Relation : Type := mkRelation {
  relation_name : string;
  relation_id : nat
}.

(** [integration_data.app] of the ingress interface: [model] and [name]. *)
Record IngressRequirerAppData : Type := mkIngressRequirerAppData {
  model : string;
  name : string
}.

Record IngressRequirerData : Type := mkIngressRequirerData {
  app : IngressRequirerAppData
}.

(** The events whose fields the handlers read. *)
Record CertificateAvailableEvent : Type := mkCertificateAvailableEvent {
  available_certificate : string
}.

Record CertificateExpiringEvent : Type := mkCertificateExpiringEvent {
  expiring_certificate : string
}.

Record CertificateInvalidatedEvent : Type := mkCertificateInvalidatedEvent {
  reason : string;
  invalidated_certificate : string
}.

Record IngressPerAppDataProvidedEvent : Type := mkIngressPerAppDataProvidedEvent {
  relation : Relation
}.

(** [ActionEvent.params] is a dict from parameter names to values. *)
Record ActionEvent : Type := mkActionEvent {
  params : list (string * string)
}.

(** Python's [bool(xs)] on a list. *)
Definition bool_of_list {A : Type} (xs : list A) : bool :=
  match xs with
  | [] => false
  | _ :: _ => true
  end.

(** [d[key]] on a dict held as an association list. *)
Fixpoint dict_get (key : string) (d : list (string * string)) : option string :=
  match d with
  | [] => None
  | (k, v) :: rest => if String.eqb k key then Some v else dict_get key rest
  end.

(** [str.encode()]: the bytes of the string. *)
Definition encode (s : string) : list byte := list_byte_of_string s.

Section Charm.

(** The values the charm only passes from one collaborator to another:
    [CharmConfig], [IngressRequirersInformation] and what
    [HTTPRequirer.get_services] returns. *)
Context {CharmConfig IngressRequirersInformation Services : Type}.

(** [tls_relation.get_hostname_from_cert]: the hostname embedded in a
    certificate body. *)
Variable get_hostname_from_cert : string -> string.

(** [ProviderCertificate.chain_as_pem]. *)
Variable chain_as_pem : ProviderCertificate -> string.

(** The calls by which the charm acts on its collaborators
    ([self.haproxy_service], [self.certificates], [self._tls],
    [self._ingress_provider]) and on the event it handles. *)
Inductive Call : Type :=
| haproxy_service_install
| haproxy_service_reconcile_ingress
    (config : CharmConfig) (ingress_requirers_information : IngressRequirersInformation)
    (hostname : string)
| haproxy_service_reconcile_legacy (config : CharmConfig) (services : Services)
| haproxy_service_reconcile_default (config : CharmConfig)
| certificates_request_certificate_revocation (certificate_signing_request : list byte)
| tls_generate_private_key (hostname : string)
| tls_request_certificate (hostname : string)
| tls_certificate_available (cert : string)
| tls_certificate_expiring (cert : string)
| tls_certificate_invalidated (cert : string)
| tls_all_certificate_invalidated
| ingress_provider_publish_url (rel : Relation) (url : string)
| event_set_results (results : list (string * string))
| event_fail (message : string)
| event_defer.

(** The charm as one handler sees it.  The first fields are what the
    collaborators answer when asked; [unit_status] is [self.unit.status];
    [calls] lists, oldest first, the calls made on the collaborators. *)
Record HAProxyCharm : Type := mkHAProxyCharm {
  (** [self._ingress_provider.relations] *)
  ingress_relations : list Relation;
  (** [self.reverseproxy_requirer.relations] *)
  reverseproxy_relations : list Relation;
  (** [CharmConfig.from_charm(self)]: the configuration, or the message of
      the [CharmConfigInvalidError] it raises. *)
  charm_config : string + CharmConfig;
  (** The TLS information of the charm, or the message of the
      [TLSNotReadyError] raised when it cannot be built. *)
  tls_information : string + TLSInformation;
  (** [self.certificates.get_provider_certificates()] *)
  provider_certificates : list ProviderCertificate;
  (** [IngressRequirersInformation.from_provider(self._ingress_provider)] *)
  ingress_requirers : IngressRequirersInformation;
  (** [self.reverseproxy_requirer.get_services()] *)
  reverseproxy_services : Services;
  (** [self._ingress_provider.get_data(relation)] *)
  ingress_data : Relation -> IngressRequirerData;
  unit_status : StatusBase;
  calls : list Call
}.

(** [self.unit.status = status]. *)
Definition with_status (status : StatusBase) (self : HAProxyCharm) : HAProxyCharm :=
  {| ingress_relations := ingress_relations self;
     reverseproxy_relations := reverseproxy_relations self;
     charm_config := charm_config self;
     tls_information := tls_information self;
     provider_certificates := provider_certificates self;
     ingress_requirers := ingress_requirers self;
     reverseproxy_services := reverseproxy_services self;
     ingress_data := ingress_data self;
     unit_status := status;
     calls := calls self |}.

(** The charm after the calls [cs], made in that order. *)
Definition with_calls (cs : list Call) (self : HAProxyCharm) : HAProxyCharm :=
  {| ingress_relations := ingress_relations self;
     reverseproxy_relations := reverseproxy_relations self;
     charm_config := charm_config self;
     tls_information := tls_information self;
     provider_certificates := provider_certificates self;
     ingress_requirers := ingress_requirers self;
     reverseproxy_services := reverseproxy_services self;
     ingress_data := ingress_data self;
     unit_status := unit_status self;
     calls := calls self ++ cs |}.

(** ** Handlers as state-passing programs with exceptions *)

Inductive Outcome (A : Type) : Type :=
| Returned (value : A) (self : HAProxyCharm)
| Raised (exc : Exception) (self : HAProxyCharm).

Arguments Returned {A} value self.
Arguments Raised {A} exc self.

Definition Method (A : Type) : Type := HAProxyCharm -> Outcome A.

Definition ret {A : Type} (a : A) : Method A := fun self => Returned a self.

Definition bind {A B : Type} (m : Method A) (k : A -> Method B) : Method B :=
  fun self =>
    match m self with
    | Returned a self' => k a self'
    | Raised exc self' => Raised exc self'
    end.

Definition raise {A : Type} (exc : Exception) : Method A :=
  fun self => Raised exc self.

Definition read {A : Type} (f : HAProxyCharm -> A) : Method A :=
  fun self => Returned (f self) self.

Definition set_status (status : StatusBase) : Method unit :=
  fun self => Returned tt (with_status status self).

Definition call (c : Call) : Method unit :=
  fun self => Returned tt (with_calls [c] self).

(** [try: body  except TLSNotReadyError as exc: handler(str(exc))]. *)
Definition try_except_TLSNotReadyError {A : Type}
    (body : Method A) (handler : string -> Method A) : Method A :=
  fun self =>
    match body self with
    | Raised (TLSNotReadyError message) self' => handler message self'
    | other => other
    end.

Declare Scope method_scope.
Delimit Scope method_scope with method.
Notation "x <- m ;; k" := (bind m (fun x => k))
  (at level 61, m at next level, right associativity) : method_scope.
Notation "m ;; k" := (bind m (fun _ => k))
  (at level 61, right associativity) : method_scope.
Local Open Scope method_scope.

(** ** Collaborators of [state/] *)

(** Modelled from the spec: [state/tls.py] is missing.  [TLSInformation] is
    never built unless the hostname configuration is present and well formed,
    and building it otherwise fails with [TLSNotReadyError];
    [TLSInformation.validate] is the validator of the mode resolver, which
    fails exactly when the information cannot be built. *)
Definition TLSInformation_validate : Method unit :=
  fun self =>
    match tls_information self with
    | inl message => Raised (TLSNotReadyError message) self
    | inr _ => Returned tt self
    end.

(** Modelled from the spec: [TLSInformation.from_charm] of the missing
    [state/tls.py], see [TLSInformation_validate]. *)
Definition TLSInformation_from_charm : Method TLSInformation :=
  fun self =>
    match tls_information self with
    | inl message => Raised (TLSNotReadyError message) self
    | inr info => Returned info self
    end.

(** Modelled from the spec: [CharmConfig.from_charm] of the missing
    [state/config.py]; the configuration is validated as it is read, and an
    invalid one raises [CharmConfigInvalidError]. *)
Definition CharmConfig_from_charm : Method CharmConfig :=
  fun self =>
    match charm_config self with
    | inl message => Raised (CharmConfigInvalidError message) self
    | inr config => Returned config self
    end.

(** ** [HAProxyCharm._validate_state] *)

(** [bool(self._ingress_provider.relations)]. *)
Definition is_ingress_related (self : HAProxyCharm) : bool :=
  bool_of_list (ingress_relations self).

(** [bool(self.reverseproxy_requirer.relations)]. *)
Definition is_legacy_related (self : HAProxyCharm) : bool :=
  bool_of_list (reverseproxy_relations self).

Definition _validate_state : Method ProxyMode :=
  is_ingress_related <- read is_ingress_related ;;
  is_legacy_related <- read is_legacy_related ;;
  if is_ingress_related && is_legacy_related then
    set_status (BlockedStatus "Both ingress and reverseproxy is related.") ;;
    ret INVALID
  else if is_ingress_related then
    early <- try_except_TLSNotReadyError
               (TLSInformation_validate ;; ret None)
               (fun message =>
                  set_status (BlockedStatus message) ;;
                  ret (Some INVALID)) ;;
    match early with
    | Some proxy_mode => ret proxy_mode
    | None => ret INGRESS
    end
  else if is_legacy_related then
    ret LEGACY
  else
    ret NOPROXY.

(** ** [HAProxyCharm._reconcile] *)

Definition _reconcile : Method unit :=
  proxy_mode <- _validate_state ;;
  if ProxyMode_eqb proxy_mode INVALID then
    ret tt
  else
    config <- CharmConfig_from_charm ;;
    match proxy_mode with
    | INGRESS =>
        ingress_requirers_information <- read ingress_requirers ;;
        tls_information <- TLSInformation_from_charm ;;
        call (haproxy_service_reconcile_ingress
                config ingress_requirers_information
                (external_hostname tls_information))
    | LEGACY =>
        services <- read reverseproxy_services ;;
        call (haproxy_service_reconcile_legacy config services)
    | _ =>
        call (haproxy_service_reconcile_default config)
    end ;;
    set_status (ActiveStatus "").

(** ** [HAProxyCharm._reconcile_certificates] *)

(** The [for certificate in ...] loop, with the local [current_certificate]
    threaded through it. *)
Fixpoint revoke_mismatching (hostname : string)
    (certificates : list ProviderCertificate)
    (current_certificate : option ProviderCertificate)
    : Method (option ProviderCertificate) :=
  match certificates with
  | [] => ret current_certificate
  | cert :: rest =>
      if negb (String.eqb (get_hostname_from_cert (certificate cert)) hostname) then
        call (certificates_request_certificate_revocation (encode (csr cert))) ;;
        revoke_mismatching hostname rest current_certificate
      else
        revoke_mismatching hostname rest (Some cert)
  end.

Definition _reconcile_certificates : Method unit :=
  tls_information <- TLSInformation_from_charm ;;
  certificates <- read provider_certificates ;;
  current_certificate <-
    revoke_mismatching (external_hostname tls_information) certificates None ;;
  match current_certificate with
  | None =>
      call (tls_generate_private_key (external_hostname tls_information)) ;;
      call (tls_request_certificate (external_hostname tls_information))
  | Some _ => ret tt
  end.

(** ** Collaborators of the certificate relation and of the deferral policy *)

(** Modelled from the spec: [TLSRelationService.get_provider_cert_with_hostname]
    of the missing [tls_relation.py].  It is the read-only lookup of a
    provider certificate by the hostname embedded in it, and returns none
    rather than erroring when no certificate matches. *)
Definition get_provider_cert_with_hostname (hostname : string)
    : Method (option ProviderCertificate) :=
  read (fun self =>
          find (fun cert => String.eqb (get_hostname_from_cert (certificate cert)) hostname)
               (provider_certificates self)).

(** Modelled from the spec: the decorator [validate_config_and_tls] of the
    missing [state/validation.py].  It first validates the configuration; when
    that is invalid the signal is deferred if [defer] is set and ignored
    otherwise, the status being left as it was.  When [block_on_tls_not_ready]
    is set and the TLS information cannot be built, the same choice is made
    with the same flag.  Otherwise the handler runs. *)
Definition validate_config_and_tls (defer block_on_tls_not_ready : bool)
    (method : Method unit) : Method unit :=
  fun self =>
    let not_now : Method unit := if defer then call event_defer else ret tt in
    match charm_config self with
    | inl _ => not_now self
    | inr _ =>
        if block_on_tls_not_ready then
          match tls_information self with
          | inl _ => not_now self
          | inr _ => method self
          end
        else method self
    end.

(** ** The event handlers *)

Definition _on_install : Method unit :=
  call haproxy_service_install ;;
  set_status (MaintenanceStatus "Waiting for haproxy to be configured.").

Definition _on_config_changed : Method unit :=
  validate_config_and_tls false false
    (_reconcile ;;
     _reconcile_certificates).

Definition _on_certificates_relation_joined : Method unit :=
  validate_config_and_tls true true
    _reconcile_certificates.

Definition _on_certificate_available (event : CertificateAvailableEvent) : Method unit :=
  validate_config_and_tls true true
    (TLSInformation_validate ;;
     call (tls_certificate_available (available_certificate event)) ;;
     _reconcile).

Definition _on_certificate_expiring (event : CertificateExpiringEvent) : Method unit :=
  validate_config_and_tls true true
    (TLSInformation_validate ;;
     call (tls_certificate_expiring (expiring_certificate event)) ;;
     let hostname := get_hostname_from_cert (expiring_certificate event) in
     set_status (MaintenanceStatus
                   ("Waiting for new certificate for hostname: " ++ hostname)%string)).

Definition _on_certificate_invalidated (event : CertificateInvalidatedEvent) : Method unit :=
  validate_config_and_tls true true
    (TLSInformation_validate ;;
     (if String.eqb (reason event) "revoked" then
        call (tls_certificate_invalidated (invalidated_certificate event))
      else ret tt) ;;
     (if String.eqb (reason event) "expired" then
        call (tls_certificate_expiring (invalidated_certificate event))
      else ret tt) ;;
     set_status (MaintenanceStatus "Waiting for new certificate") ;;
     let hostname := get_hostname_from_cert (invalidated_certificate event) in
     set_status (MaintenanceStatus
                   ("Waiting for new certificate for hostname: " ++ hostname)%string)).

Definition _on_all_certificate_invalidated : Method unit :=
  validate_config_and_tls false false
    (call tls_all_certificate_invalidated ;;
     _reconcile).

(** [event.params[key]], raising [KeyError] on a missing key. *)
Definition params_get (event : ActionEvent) (key : string) : Method string :=
  match dict_get key (params event) with
  | Some value => ret value
  | None => raise (KeyError key)
  end.

Definition _on_get_certificate_action (event : ActionEvent) : Method unit :=
  TLSInformation_validate ;;
  hostname <- params_get event "hostname" ;;
  provider_cert <- get_provider_cert_with_hostname hostname ;;
  match provider_cert with
  | Some cert =>
      call (event_set_results
              [("certificate", certificate cert);
               ("ca", ca cert);
               ("chain", chain_as_pem cert)])
  | None =>
      call (event_fail ("Missing or incomplete certificate data for " ++ hostname)%string)
  end.

Definition _on_http_backend_available : Method unit :=
  validate_config_and_tls false false _reconcile.

Definition _on_http_backend_removed : Method unit :=
  validate_config_and_tls false false _reconcile.

Definition _on_ingress_data_provided (event : IngressPerAppDataProvidedEvent) : Method unit :=
  validate_config_and_tls true true
    (_reconcile ;;
     tls_information <- TLSInformation_from_charm ;;
     integration_data <- read (fun self => ingress_data self (relation event)) ;;
     let path_prefix :=
       (model (app integration_data) ++ "-" ++ name (app integration_data))%string in
     call (ingress_provider_publish_url
             (relation event)
             ("https://" ++ external_hostname tls_information ++ "/" ++ path_prefix ++ "/")%string)).

Definition _on_ingress_data_removed : Method unit :=
  validate_config_and_tls false true _reconcile.

(** ** Notions the statements use *)

(** The calls made between two states of the charm. *)
Definition issued (before after : HAProxyCharm) : list Call :=
  skipn (length (calls before)) (calls after).

(** The mode resolver answers [mode] in state [self]. *)
Definition resolves_to (self : HAProxyCharm) (mode : ProxyMode) : Prop :=
  exists self', _validate_state self = Returned mode self'.

(** The certificate's embedded hostname differs from the desired one: the
    test of the loop of [_reconcile_certificates]. *)
Definition mismatching (hostname : string) (cert : ProviderCertificate) : bool :=
  negb (String.eqb (get_hostname_from_cert (certificate cert)) hostname).

(** The revocation request [_reconcile_certificates] makes for a certificate. *)
Definition revocation_of (cert : ProviderCertificate) : Call :=
  certificates_request_certificate_revocation (encode (csr cert)).

(** The value of [current_certificate] after the loop has gone through
    [certificates], read off the loop: every matching certificate overwrites
    it. *)
Definition current_after (hostname : string)
    (certificates : list ProviderCertificate)
    (current_certificate : option ProviderCertificate) : option ProviderCertificate :=
  fold_left
    (fun current cert => if mismatching hostname cert then current else Some cert)
    certificates current_certificate.

(** The requests one run of [_reconcile_certificates] makes for the desired
    hostname and the provider's certificates. *)
Definition requests_for (hostname : string)
    (certificates : list ProviderCertificate) : list Call :=
  map revocation_of (filter (mismatching hostname) certificates)
  ++ (if forallb (mismatching hostname) certificates
      then [tls_generate_private_key hostname; tls_request_certificate hostname]
      else []).

(** The mode resolver answers INVALID exactly when both relations are
    present, whatever the TLS state. *)
Definition invalid_iff_both_related (self : HAProxyCharm) : Prop :=
  resolves_to self INVALID <->
  is_ingress_related self = true /\ is_legacy_related self = true.

(** After the desired hostname has moved away from [old_hostname], a run of
    certificate reconciliation revokes each mismatching certificate once and
    then generates one key and makes one signing request for the new
    hostname. *)
Definition reissues_after_change (old_hostname : string) (self : HAProxyCharm) : Prop :=
  forall info self',
    tls_information self = inr info ->
    external_hostname info <> old_hostname ->
    _reconcile_certificates self = Returned tt self' ->
    issued self self'
    = map revocation_of
        (filter (mismatching (external_hostname info)) (provider_certificates self))
      ++ [tls_generate_private_key (external_hostname info);
          tls_request_certificate (external_hostname info)].


(** The URL published to an ingress requirer. *)
Definition ingress_url (hostname : string) (data : IngressRequirerData) : string :=
  ("https://" ++ hostname ++ "/" ++ model (app data) ++ "-" ++ name (app data) ++ "/")%string.

(** A second run of certificate reconciliation, started where a first run
    returned, makes no request. *)
Definition second_run_adds_nothing (self : HAProxyCharm) : Prop :=
  forall self1 self2,
    _reconcile_certificates self = Returned tt self1 ->
    _reconcile_certificates self1 = Returned tt self2 ->
    issued self1 self2 = [].



(** The handler of a certificate-invalidated event returns with the status
    that names the hostname of the certificate. *)
Definition invalidation_surfaced (event : CertificateInvalidatedEvent)
    (self : HAProxyCharm) : Prop :=
  exists self',
    _on_certificate_invalidated event self = Returned tt self'
    /\ unit_status self'
       = MaintenanceStatus
           ("Waiting for new certificate for hostname: "
            ++ get_hostname_from_cert (invalidated_certificate event))%string.

(** Modelled from the spec: the state of [TLSRelationService], of the missing
    [tls_relation.py]: the certificates it tracks, those it has marked as
    expiring, and the hostnames it has requested a fresh certificate for. *)
Record TLSRelationService : Type := mkTLSRelationService {
  tracked : list string;
  marked_expiring : list string;
  requested : list string
}.

(** Modelled from the spec: what the methods of [TLSRelationService], of the
    missing [tls_relation.py], do when the charm calls them.  A certificate
    made available is recorded.  A certificate expiring is marked as expiring
    and nothing is revoked or requested.  A certificate invalidated is dropped
    and a fresh one is requested for its hostname.  When all certificates are
    invalidated every tracked certificate is dropped and a fresh one is
    requested for the desired hostname.  A certificate request is recorded as
    requested.  Calls on other collaborators do not concern the service. *)
Definition tls_service_call (desired_hostname : string) (c : Call)
    (service : TLSRelationService) : TLSRelationService :=
  match c with
  | tls_certificate_available cert =>
      {| tracked := cert :: tracked service;
         marked_expiring := marked_expiring service;
         requested := requested service |}
  | tls_certificate_expiring cert =>
      {| tracked := tracked service;
         marked_expiring := cert :: marked_expiring service;
         requested := requested service |}
  | tls_certificate_invalidated cert =>
      {| tracked := remove string_dec cert (tracked service);
         marked_expiring := marked_expiring service;
         requested := requested service ++ [get_hostname_from_cert cert] |}
  | tls_all_certificate_invalidated =>
      {| tracked := [];
         marked_expiring := marked_expiring service;
         requested := requested service ++ [desired_hostname] |}
  | tls_request_certificate hostname =>
      {| tracked := tracked service;
         marked_expiring := marked_expiring service;
         requested := requested service ++ [hostname] |}
  | _ => service
  end.

(** The service after the calls [cs], made in that order. *)
Definition tls_service_after (desired_hostname : string) (cs : list Call)
    (service : TLSRelationService) : TLSRelationService :=
  fold_left (fun service c => tls_service_call desired_hostname c service) cs service.

(** The calls [cs] make the service drop [cert] and request a fresh
    certificate for its hostname, and mark nothing as expiring. *)
Definition drops_and_requests (cs : list Call) (cert : string) : Prop :=
  forall (desired_hostname : string) (service : TLSRelationService),
    ~ In cert (tracked (tls_service_after desired_hostname cs service))
    /\ requested (tls_service_after desired_hostname cs service)
       = requested service ++ [get_hostname_from_cert cert]
    /\ marked_expiring (tls_service_after desired_hostname cs service)
       = marked_expiring service.

(** The calls [cs] make the service mark [cert] as expiring and do nothing
    else: nothing is dropped and nothing is requested. *)
Definition only_marks_expiring (cs : list Call) (cert : string) : Prop :=
  forall (desired_hostname : string) (service : TLSRelationService),
    tracked (tls_service_after desired_hostname cs service) = tracked service
    /\ requested (tls_service_after desired_hostname cs service) = requested service
    /\ marked_expiring (tls_service_after desired_hostname cs service)
       = cert :: marked_expiring service.

(** The calls [cs] leave the service as it was. *)
Definition leaves_tls_service (cs : list Call) : Prop :=
  forall (desired_hostname : string) (service : TLSRelationService),
    tls_service_after desired_hostname cs service = service.

(** The call is one of the three configuration builds of
    [self.haproxy_service]. *)
Definition is_configuration_build (c : Call) : bool :=
  match c with
  | haproxy_service_reconcile_ingress _ _ _
  | haproxy_service_reconcile_legacy _ _
  | haproxy_service_reconcile_default _ => true
  | _ => false
  end.

(** The charm with another answer of [CharmConfig.from_charm]. *)
Definition with_config (config : string + CharmConfig) (self : HAProxyCharm)
    : HAProxyCharm :=
  {| ingress_relations := ingress_relations self;
     reverseproxy_relations := reverseproxy_relations self;
     charm_config := config;
     tls_information := tls_information self;
     provider_certificates := provider_certificates self;
     ingress_requirers := ingress_requirers self;
     reverseproxy_services := reverseproxy_services self;
     ingress_data := ingress_data self;
     unit_status := unit_status self;
     calls := calls self |}.

End Charm.

Arguments Returned {CharmConfig IngressRequirersInformation Services A} value self.
Arguments Raised {CharmConfig IngressRequirersInformation Services A} exc self.

(** ** A deployment to run the handlers on *)

(** The configuration as the options set, the ingress requirers and the
    backend services by name. *)
Definition Config : Type := list (string * string).
Definition Requirers : Type := list string.
Definition Backends : Type := list string.

(** A certificate body written as [CN=<hostname>]. *)
Definition cert_for (hostname : string) : string := ("CN=" ++ hostname)%string.

Definition hostname_of (cert : string) : string :=
  substring 3 (String.length cert - 3) cert.

Definition pem_chain (cert : ProviderCertificate) : string :=
  String.concat "," (rev (chain cert)).

Definition provider_cert (hostname : string) : ProviderCertificate :=
  {| csr := ("CSR " ++ hostname)%string;
     certificate := cert_for hostname;
     ca := "CA";
     chain := [cert_for hostname; "CA"] |}.

Definition ingress_relation : Relation := mkRelation "ingress" 4.
Definition reverseproxy_relation : Relation := mkRelation "reverseproxy" 7.

(** A unit just installed, with the given relations, TLS state and provider
    certificates; the ingress requirer is the application [wordpress] of the
    model [prod]. *)
Definition deployed (ingress legacy : list Relation)
    (tls : string + TLSInformation) (certificates : list ProviderCertificate)
    : @HAProxyCharm Config Requirers Backends :=
  {| ingress_relations := ingress;
     reverseproxy_relations := legacy;
     charm_config := inr [("external-hostname", "svc.example.com")];
     tls_information := tls;
     provider_certificates := certificates;
     ingress_requirers := ["prod-wordpress"];
     reverseproxy_services := [];
     ingress_data := fun _ => mkIngressRequirerData (mkIngressRequirerAppData "prod" "wordpress");
     unit_status := MaintenanceStatus "Waiting for haproxy to be configured.";
     calls := [haproxy_service_install] |}.

Definition tls_ready (hostname : string) : string + TLSInformation :=
  inr (mkTLSInformation hostname).

Definition tls_not_ready : string + TLSInformation :=
  inl "Hostname not configured.".

(** Ingress related alone, before the hostname is configured. *)
Definition ingress_without_tls : @HAProxyCharm Config Requirers Backends :=
  deployed [ingress_relation] [] tls_not_ready [].

(** Both proxy relations present, TLS ready. *)
Definition both_related : @HAProxyCharm Config Requirers Backends :=
  deployed [ingress_relation] [reverseproxy_relation]
    (tls_ready "svc.example.com") [provider_cert "svc.example.com"].

(** The desired hostname has moved from [old.example.com] to
    [svc.example.com] while the provider lists a certificate for each. *)
Definition after_hostname_change : @HAProxyCharm Config Requirers Backends :=
  deployed [ingress_relation] [] (tls_ready "svc.example.com")
    [provider_cert "old.example.com"; provider_cert "svc.example.com"].

(** The provider lists a stale certificate and two for the desired hostname. *)
Definition two_matching : @HAProxyCharm Config Requirers Backends :=
  deployed [ingress_relation] [] (tls_ready "svc.example.com")
    [{| csr := "CSR 1"; certificate := cert_for "svc.example.com";
        ca := "CA"; chain := [] |};
     provider_cert "old.example.com";
     provider_cert "svc.example.com"].

(** The provider lists one certificate, for a hostname no longer desired. *)
Definition stale_only : @HAProxyCharm Config Requirers Backends :=
  deployed [ingress_relation] [] (tls_ready "svc.example.com")
    [provider_cert "old.example.com"].

(** The requests [stale_only] calls for. *)
Definition stale_only_requests : list (@Call Config Requirers Backends) :=
  [certificates_request_certificate_revocation (encode "CSR old.example.com");
   tls_generate_private_key "svc.example.com";
   tls_request_certificate "svc.example.com"].

(** The legacy relation alone, with no hostname configured. *)
Definition legacy_only : @HAProxyCharm Config Requirers Backends :=
  deployed [] [reverseproxy_relation] tls_not_ready [].

(** No proxy relation at all. *)
Definition unrelated : @HAProxyCharm Config Requirers Backends :=
  deployed [] [] tls_not_ready [].

(** The legacy relation alone, with a configuration that does not validate. *)
Definition legacy_bad_config : @HAProxyCharm Config Requirers Backends :=
  with_config (inl "global-maxconn must be positive.") legacy_only.

(** The provider lists the certificate of the desired hostname and no other. *)
Definition settled : @HAProxyCharm Config Requirers Backends :=
  deployed [ingress_relation] [] (tls_ready "svc.example.com")
    [provider_cert "svc.example.com"].

(** Ingress related and the hostname configured, before the provider lists
    any certificate. *)
Definition awaiting_certificate : @HAProxyCharm Config Requirers Backends :=
  deployed [ingress_relation] [] (tls_ready "svc.example.com") [].

(** The configuration of the deployments. *)
Definition deployed_config : Config := [("external-hostname", "svc.example.com")].

(** [settled] after a pass in ingress mode. *)
Definition settled_built : @HAProxyCharm Config Requirers Backends :=
  with_status (ActiveStatus "")
    (with_calls
       [haproxy_service_reconcile_ingress deployed_config ["prod-wordpress"]
          "svc.example.com"]
       settled).

(** [legacy_only] after a pass in legacy mode. *)
Definition legacy_built : @HAProxyCharm Config Requirers Backends :=
  with_status (ActiveStatus "")
    (with_calls [haproxy_service_reconcile_legacy deployed_config []] legacy_only).

Definition get_certificate (hostname : string) : ActionEvent :=
  mkActionEvent [("hostname", hostname)].

(** ** Properties *)

Section Properties.

Context {CharmConfig IngressRequirersInformation Services : Type}.
Variable get_hostname_from_cert : string -> string.
Variable chain_as_pem : ProviderCertificate -> string.

Local Abbreviation Charm := (@HAProxyCharm CharmConfig IngressRequirersInformation Services).
Local Abbreviation Call := (@Call CharmConfig IngressRequirersInformation Services).

Lemma with_calls_nil (self : Charm) : with_calls [] self = self.
Proof.
  destruct self; unfold with_calls; simpl. now rewrite app_nil_r.
Qed.

Lemma with_calls_app (cs1 cs2 : list Call) (self : Charm) :
  with_calls cs2 (with_calls cs1 self) = with_calls (cs1 ++ cs2) self.
Proof.
  unfold with_calls; simpl. now rewrite app_assoc.
Qed.

Lemma issued_with_calls (cs : list Call) (self : Charm) :
  issued self (with_calls cs self) = cs.
Proof.
  unfold issued; simpl.
  rewrite skipn_app, skipn_all, Nat.sub_diag. reflexivity.
Qed.

Lemma bool_of_list_false {A : Type} (xs : list A) :
  bool_of_list xs = false -> xs = [].
Proof. destruct xs; [reflexivity | discriminate]. Qed.

(** Unfolds the mode resolver on a state whose two relation lists are known. *)
Ltac resolve_mode :=
  unfold _validate_state, bind, read, ret, set_status,
    try_except_TLSNotReadyError, TLSInformation_validate,
    is_ingress_related, is_legacy_related in *;
  simpl in *.

(** Case analysis on the facts the mode resolver reads. *)
Ltac mode_cases self :=
  destruct (ingress_relations self), (reverseproxy_relations self); simpl;
  destruct (tls_information self) as [message | info]; simpl.

(** The mode resolver always returns: it raises nothing. *)
Lemma validate_state_returns (self : Charm) :
  exists mode self', _validate_state self = Returned mode self'.
Proof.
  resolve_mode. mode_cases self; eauto.
Qed.

(** With both relations present the resolver blocks and answers INVALID. *)
Lemma validate_state_both_related (self : Charm) :
  is_ingress_related self = true ->
  is_legacy_related self = true ->
  _validate_state self
  = Returned INVALID
      (with_status (BlockedStatus "Both ingress and reverseproxy is related.") self).
Proof.
  intros Hi Hl. resolve_mode. now rewrite Hi, Hl.
Qed.

(** C1: the mode resolver follows the decision order.  Both relations
    present: INVALID, with the blocking status about both relations.
    Otherwise, ingress present: the TLS validator is run, its failure gives
    INVALID with the validator's message as blocking status, its success gives
    INGRESS.  Otherwise, the legacy relation present: LEGACY.  Otherwise
    NOPROXY.  Outside the two INVALID cases the state is left as it was. *)
Theorem validate_state_decision_order (self : Charm) :
  (is_ingress_related self = true -> is_legacy_related self = true ->
   _validate_state self
     = Returned INVALID
         (with_status (BlockedStatus "Both ingress and reverseproxy is related.") self))
  /\ (is_ingress_related self = true -> is_legacy_related self = false ->
      forall message,
        TLSInformation_validate self = Raised (TLSNotReadyError message) self ->
        _validate_state self
          = Returned INVALID (with_status (BlockedStatus message) self))
  /\ (is_ingress_related self = true -> is_legacy_related self = false ->
      TLSInformation_validate self = Returned tt self ->
      _validate_state self = Returned INGRESS self)
  /\ (is_ingress_related self = false -> is_legacy_related self = true ->
      _validate_state self = Returned LEGACY self)
  /\ (is_ingress_related self = false -> is_legacy_related self = false ->
      _validate_state self = Returned NOPROXY self).
Proof.
  repeat split.
  - apply validate_state_both_related.
  - intros Hi Hl message Hv. resolve_mode. rewrite Hi, Hl. simpl.
    destruct (tls_information self); [| discriminate].
    now inversion Hv.
  - intros Hi Hl Hv. resolve_mode. rewrite Hi, Hl. simpl.
    destruct (tls_information self); [discriminate | reflexivity].
  - intros Hi Hl. resolve_mode. now rewrite Hi, Hl.
  - intros Hi Hl. resolve_mode. now rewrite Hi, Hl.
Qed.

(** C2, amended: the mode resolver always answers, and it answers INVALID
    exactly when the ingress relation is present together with the legacy
    relation, or is present while the TLS validator fails.  The TLS state
    bears on the answer only with the ingress relation present and the legacy
    relation absent: in every other case a state with the same two relation
    facts gets the same answer, whatever its TLS state; with ingress alone
    the answer is INGRESS exactly when the validator passes. *)
Theorem validate_state_invalid_iff (self : Charm) :
  (exists mode, resolves_to self mode)
  /\ (resolves_to self INVALID <->
      is_ingress_related self = true
      /\ (is_legacy_related self = true
          \/ exists message,
               TLSInformation_validate self = Raised (TLSNotReadyError message) self))
  /\ (forall (other : Charm) (mode : ProxyMode),
        is_ingress_related other = is_ingress_related self ->
        is_legacy_related other = is_legacy_related self ->
        is_ingress_related self = false \/ is_legacy_related self = true ->
        resolves_to self mode -> resolves_to other mode)
  /\ (is_ingress_related self = true -> is_legacy_related self = false ->
      (resolves_to self INGRESS <-> TLSInformation_validate self = Returned tt self)).
Proof.
  split; [| split; [| split]].
  - destruct (validate_state_returns self) as (mode & self' & H).
    exists mode, self'. exact H.
  - unfold resolves_to. resolve_mode.
    mode_cases self; split;
      try (intros [self' H]; discriminate H);
      try (intros [H _]; discriminate H);
      try (intros [_ [H | [m H]]]; discriminate H);
      try (intros _; eexists; reflexivity).
    + intros _. split; [reflexivity |]. right. exists message. reflexivity.
    + intros _. split; [reflexivity |]. now left.
    + intros _. split; [reflexivity |]. now left.
  - intros other mode Hi Hl Hcase [self' H]. unfold resolves_to.
    resolve_mode. rewrite Hi, Hl.
    destruct (bool_of_list (ingress_relations self)),
      (bool_of_list (reverseproxy_relations self)); simpl in *;
      try (destruct Hcase as [Hcase | Hcase]; discriminate Hcase);
      inversion H; subst; eexists; reflexivity.
  - intros Hi Hl. unfold resolves_to. resolve_mode. rewrite Hi, Hl. simpl.
    destruct (tls_information self) as [message | info]; simpl; split;
      try discriminate; try (intros _; eexists; reflexivity); try reflexivity.
    intros [self' H]. discriminate H.
Qed.

(** C7: when the mode resolver answers INVALID, [_reconcile] returns at once
    in the state the resolver left: no call was made on any collaborator (no
    ingress, legacy or default configuration build), the unit status is the
    blocking status the resolver set, and it is not the active status. *)
Theorem reconcile_stops_when_invalid (self self' : Charm) :
  _validate_state self = Returned INVALID self' ->
  _reconcile self = Returned tt self'
  /\ calls self' = calls self
  /\ (exists message, unit_status self' = BlockedStatus message)
  /\ (forall message, unit_status self' <> ActiveStatus message).
Proof.
  intros H.
  assert (Hrun : _reconcile self = Returned tt self').
  { unfold _reconcile, bind at 1. rewrite H. reflexivity. }
  split; [exact Hrun |].
  revert H. resolve_mode.
  mode_cases self; intros H; inversion H; subst; simpl;
    (split; [reflexivity | split; [eexists; reflexivity | intros m; discriminate]]).
Qed.

(** *** Certificate reconciliation *)

(** The loop returns what [current_after] computes and makes one revocation
    request per mismatching get_hostname_from_cert certificate, in the order of the list. *)
Lemma revoke_mismatching_run (hostname : string) :
  forall (certificates : list ProviderCertificate)
         (current : option ProviderCertificate) (self : Charm),
    revoke_mismatching get_hostname_from_cert hostname certificates current self
    = Returned (current_after get_hostname_from_cert hostname certificates current)
        (with_calls (map revocation_of (filter (mismatching get_hostname_from_cert hostname) certificates)) self).
Proof.
  induction certificates as [| cert rest IH]; intros current self.
  - simpl. unfold ret. now rewrite with_calls_nil.
  - cbn [revoke_mismatching current_after fold_left filter].
    fold (mismatching get_hostname_from_cert hostname cert).
    destruct (mismatching get_hostname_from_cert hostname cert).
    + unfold bind, call. rewrite IH. cbn [map].
      now rewrite with_calls_app.
    + apply IH.
Qed.

Lemma current_after_kept (hostname : string) :
  forall (certificates : list ProviderCertificate) (current : option ProviderCertificate),
    forallb (mismatching get_hostname_from_cert hostname) certificates = true ->
    current_after get_hostname_from_cert hostname certificates current = current.
Proof.
  induction certificates as [| cert rest IH]; intros current H; [reflexivity |].
  cbn [forallb] in H. apply andb_true_iff in H as [Hc Hrest].
  cbn [current_after fold_left]. rewrite Hc. now apply IH.
Qed.


(** Nothing is left in [current_certificate] exactly when no certificate
    matches. *)
Lemma current_after_none (hostname : string) :
  forall certificates : list ProviderCertificate,
    current_after get_hostname_from_cert hostname certificates None
    = (if forallb (mismatching get_hostname_from_cert hostname) certificates
       then None
       else current_after get_hostname_from_cert hostname certificates None)
    /\ (forallb (mismatching get_hostname_from_cert hostname) certificates = false ->
        current_after get_hostname_from_cert hostname certificates None <> None).
Proof.
  intros certificates. split.
  - destruct (forallb (mismatching get_hostname_from_cert hostname) certificates) eqn:H; [| reflexivity].
    now apply current_after_kept.
  - revert certificates.
    assert (G : forall certificates current,
               current <> None -> current_after get_hostname_from_cert hostname certificates current <> None).
    { induction certificates as [| c rest IH]; intros current Hc; [exact Hc |].
      cbn [current_after fold_left].
      destruct (mismatching get_hostname_from_cert hostname c); apply IH; [exact Hc | discriminate]. }
    induction certificates as [| c rest IH]; intros H; [discriminate |].
    cbn [forallb] in H. cbn [current_after fold_left].
    destruct (mismatching get_hostname_from_cert hostname c) eqn:Hc.
    + apply IH. exact H.
    + apply G. discriminate.
Qed.

(** One run of [_reconcile_certificates]: it raises when the TLS information
    cannot be built, and otherwise returns after the requests of
    [requests_for], leaving the rest of the state as it was. *)
Lemma reconcile_certificates_run (self : Charm) :
  _reconcile_certificates get_hostname_from_cert self
  = match tls_information self with
    | inl message => Raised (TLSNotReadyError message) self
    | inr info =>
        Returned tt
          (with_calls
             (requests_for get_hostname_from_cert (external_hostname info) (provider_certificates self))
             self)
    end.
Proof.
  unfold _reconcile_certificates, bind at 1, TLSInformation_from_charm.
  destruct (tls_information self) as [message | info]; [reflexivity |].
  unfold bind at 1, read. unfold bind at 1.
  rewrite revoke_mismatching_run. unfold requests_for.
  destruct (current_after_none (external_hostname info) (provider_certificates self))
    as [Hnone Hsome].
  destruct (forallb (mismatching get_hostname_from_cert (external_hostname info)) (provider_certificates self)).
  - rewrite Hnone. unfold bind, call. now rewrite !with_calls_app.
  - specialize (Hsome eq_refl).
    destruct (current_after get_hostname_from_cert (external_hostname info) (provider_certificates self) None);
      [| contradiction].
    unfold ret. now rewrite app_nil_r.
Qed.

Lemma mismatching_false (hostname : string) (cert : ProviderCertificate) :
  mismatching get_hostname_from_cert hostname cert = false <->
  get_hostname_from_cert (certificate cert) = hostname.
Proof.
  unfold mismatching. rewrite negb_false_iff. apply String.eqb_eq.
Qed.


(** A run makes no request exactly when certificates are known and all of
    them carry the hostname. *)
Lemma requests_for_nil (hostname : string) (certificates : list ProviderCertificate) :
  @requests_for CharmConfig IngressRequirersInformation Services
    get_hostname_from_cert hostname certificates = [] <->
  certificates <> []
  /\ forall cert, In cert certificates ->
                  get_hostname_from_cert (certificate cert) = hostname.
Proof.
  unfold requests_for. split.
  - intros H. apply app_eq_nil in H as [Hrev Hreq].
    apply map_eq_nil in Hrev.
    destruct (forallb (mismatching get_hostname_from_cert hostname) certificates)
      eqn:Hall; [discriminate Hreq |].
    split.
    + intros ->. discriminate Hall.
    + intros cert Hin. apply mismatching_false.
      destruct (mismatching get_hostname_from_cert hostname cert) eqn:Hm;
        [| reflexivity].
      assert (Hf : In cert (filter (mismatching get_hostname_from_cert hostname)
                              certificates))
        by (apply filter_In; auto).
      rewrite Hrev in Hf. destruct Hf.
  - intros [Hne Hall].
    assert (Hfilter : filter (mismatching get_hostname_from_cert hostname)
                        certificates = []).
    { clear Hne. induction certificates as [| c rest IH]; [reflexivity |].
      cbn [filter].
      rewrite (proj2 (mismatching_false hostname c) (Hall c (or_introl eq_refl))).
      apply IH. intros cert Hin. apply Hall. now right. }
    rewrite Hfilter.
    destruct certificates as [| c rest]; [contradiction |].
    cbn [forallb].
    now rewrite (proj2 (mismatching_false hostname c) (Hall c (or_introl eq_refl))).
Qed.

(** C3, amended: a second run of certificate reconciliation, started in the
    state the first run left (same desired hostname, same provider
    certificates), returns and repeats the requests of the first run: it makes
    exactly the revocation requests, the key generation and the signing
    request the first run made, and none the first run did not make.  It makes
    no request at all exactly when the provider lists at least one certificate
    and every listed certificate carries the desired hostname.  A run leaves
    the TLS information and the provider's certificates as they were. *)
Theorem reconcile_certificates_twice (self self1 : Charm) :
  _reconcile_certificates get_hostname_from_cert self = Returned tt self1 ->
  exists self2,
    _reconcile_certificates get_hostname_from_cert self1 = Returned tt self2
    /\ issued self1 self2 = issued self self1
    /\ (forall request, In request (issued self1 self2) -> In request (issued self self1))
    /\ tls_information self1 = tls_information self
    /\ provider_certificates self1 = provider_certificates self
    /\ exists info,
         tls_information self = inr info
         /\ (issued self1 self2 = [] <->
             provider_certificates self <> []
             /\ forall cert, In cert (provider_certificates self) ->
                             get_hostname_from_cert (certificate cert)
                             = external_hostname info).
Proof.
  intros H1. rewrite reconcile_certificates_run in H1.
  destruct (tls_information self) as [message | info] eqn:Htls; [discriminate |].
  inversion H1 as [Hself1]. clear H1.
  eexists. split.
  - rewrite reconcile_certificates_run. cbn [with_calls tls_information].
    rewrite Htls. reflexivity.
  - cbn [with_calls tls_information provider_certificates].
    rewrite !issued_with_calls. repeat split; auto.
    exists info. split; [reflexivity |]. apply requests_for_nil.
Qed.

(** C4, amended: when certificate reconciliation runs for a desired hostname,
    it makes exactly one revocation request for each known provider
    certificate whose embedded hostname differs from the desired one, in the
    order of the list.  If no known certificate carries the desired hostname,
    one private-key generation and then one signing request for that hostname
    follow the revocations; if some known certificate carries it, no key is
    generated and no signing request is made. *)
Theorem reconcile_certificates_requests (self : Charm) (info : TLSInformation) :
  tls_information self = inr info ->
  exists self',
    _reconcile_certificates get_hostname_from_cert self = Returned tt self'
    /\ (forallb (mismatching get_hostname_from_cert (external_hostname info)) (provider_certificates self) = true ->
        issued self self'
        = map revocation_of
            (filter (mismatching get_hostname_from_cert (external_hostname info)) (provider_certificates self))
          ++ [tls_generate_private_key (external_hostname info);
              tls_request_certificate (external_hostname info)])
    /\ (forallb (mismatching get_hostname_from_cert (external_hostname info)) (provider_certificates self) = false ->
        issued self self'
        = map revocation_of
            (filter (mismatching get_hostname_from_cert (external_hostname info)) (provider_certificates self))).
Proof.
  intros Htls. eexists. split.
  - rewrite reconcile_certificates_run, Htls. reflexivity.
  - rewrite issued_with_calls. unfold requests_for.
    split; intros Hall; rewrite Hall; [reflexivity | apply app_nil_r].
Qed.



(** *** Handlers *)

(** Unfolds a handler down to the reads and writes it makes. *)
Ltac run_handler :=
  unfold validate_config_and_tls, _reconcile, _validate_state, bind, read, ret,
    call, set_status, raise, try_except_TLSNotReadyError, TLSInformation_validate,
    TLSInformation_from_charm, CharmConfig_from_charm,
    is_ingress_related, is_legacy_related in *.

(** C5, amended: a certificate-invalidated event handled with a valid
    configuration and the TLS information at hand, so that the decorator lets
    it through.  With reason "revoked" the handler hands the certificate to
    the certificate-invalidated path of the TLS service, which drops it and
    requests a fresh certificate for its hostname.  With reason "expired" it
    does what the certificate-expiring handler does: the certificate is
    handed to the certificate-expiring path, which marks it as expiring;
    nothing is dropped, requested or revoked.  With any other reason no
    collaborator is called and the TLS service is left as it was.  In all
    three cases the final status is the maintenance status naming the
    hostname of the certificate. *)
Theorem certificate_invalidated_by_reason
    (event : CertificateInvalidatedEvent) (self : Charm)
    (config : CharmConfig) (info : TLSInformation) :
  charm_config self = inr config ->
  tls_information self = inr info ->
  (reason event = "revoked" ->
   _on_certificate_invalidated get_hostname_from_cert event self
   = Returned tt
       (with_status
          (MaintenanceStatus
             ("Waiting for new certificate for hostname: "
              ++ get_hostname_from_cert (invalidated_certificate event))%string)
          (with_calls [tls_certificate_invalidated (invalidated_certificate event)] self))
   /\ drops_and_requests get_hostname_from_cert
        (issued self
           (with_status
              (MaintenanceStatus
                 ("Waiting for new certificate for hostname: "
                  ++ get_hostname_from_cert (invalidated_certificate event))%string)
              (with_calls [tls_certificate_invalidated (invalidated_certificate event)]
                 self)))
        (invalidated_certificate event))
  /\ (reason event = "expired" ->
      _on_certificate_invalidated get_hostname_from_cert event self
      = _on_certificate_expiring get_hostname_from_cert
          (mkCertificateExpiringEvent (invalidated_certificate event)) self
      /\ _on_certificate_invalidated get_hostname_from_cert event self
         = Returned tt
             (with_status
                (MaintenanceStatus
                   ("Waiting for new certificate for hostname: "
                    ++ get_hostname_from_cert (invalidated_certificate event))%string)
                (with_calls [tls_certificate_expiring (invalidated_certificate event)] self))
      /\ only_marks_expiring get_hostname_from_cert
           (issued self
              (with_status
                 (MaintenanceStatus
                    ("Waiting for new certificate for hostname: "
                     ++ get_hostname_from_cert (invalidated_certificate event))%string)
                 (with_calls [tls_certificate_expiring (invalidated_certificate event)]
                    self)))
           (invalidated_certificate event))
  /\ (reason event <> "revoked" -> reason event <> "expired" ->
      _on_certificate_invalidated get_hostname_from_cert event self
      = Returned tt
          (with_status
             (MaintenanceStatus
                ("Waiting for new certificate for hostname: "
                 ++ get_hostname_from_cert (invalidated_certificate event))%string)
             self)
      /\ leaves_tls_service get_hostname_from_cert
           (issued self
              (with_status
                 (MaintenanceStatus
                    ("Waiting for new certificate for hostname: "
                     ++ get_hostname_from_cert (invalidated_certificate event))%string)
                 self))).
Proof.
  intros Hconfig Htls.
  unfold _on_certificate_invalidated, _on_certificate_expiring.
  run_handler. rewrite Hconfig, Htls. cbn [expiring_certificate].
  split; [| split].
  - intros Hr. rewrite Hr. split; [reflexivity |].
    intros desired service.
    change (issued self (with_status ?st (with_calls ?cs self)))
      with (issued self (with_calls cs self)).
    rewrite issued_with_calls.
    cbn [tls_service_after fold_left tls_service_call
         tracked requested marked_expiring].
    split; [apply remove_In | split; reflexivity].
  - intros Hr. rewrite Hr. split; [reflexivity |]. split; [reflexivity |].
    intros desired service.
    change (issued self (with_status ?st (with_calls ?cs self)))
      with (issued self (with_calls cs self)).
    rewrite issued_with_calls.
    cbn [tls_service_after fold_left tls_service_call
         tracked requested marked_expiring].
    auto.
  - intros Hr He.
    apply String.eqb_neq in Hr, He. rewrite Hr, He. split; [reflexivity |].
    intros desired service. unfold issued. cbn [with_status calls].
    now rewrite skipn_all.
Qed.

Lemma append_assoc (a b c : string) : ((a ++ b) ++ c = a ++ b ++ c)%string.
Proof.
  induction a as [| ch a IH]; simpl; [reflexivity | now rewrite IH].
Qed.

(** With a valid configuration and TLS information at hand, [_reconcile]
    returns, and it leaves what the collaborators answer as it was. *)
Lemma reconcile_returns_when_ready (self : Charm)
    (config : CharmConfig) (info : TLSInformation) :
  charm_config self = inr config ->
  tls_information self = inr info ->
  exists self',
    _reconcile self = Returned tt self'
    /\ tls_information self' = tls_information self
    /\ ingress_data self' = ingress_data self
    /\ (is_ingress_related self && is_legacy_related self = true ->
        unit_status self' = BlockedStatus "Both ingress and reverseproxy is related."
        /\ calls self' = calls self).
Proof.
  intros Hconfig Htls. run_handler.
  destruct (ingress_relations self), (reverseproxy_relations self); simpl;
    rewrite ?Htls; simpl; rewrite ?Hconfig; simpl; rewrite ?Htls; simpl;
    eexists; (split; [reflexivity |]); simpl;
    (split; [simpl; congruence | split; [reflexivity |]]);
    intros Hboth; try discriminate Hboth; split; reflexivity.
Qed.

(** C10: on an ingress data-provided event that the decorator lets through
    (valid configuration, TLS information at hand), the handler runs
    [_reconcile] and then publishes https://<external-hostname>/<model>-<app-name>/
    to the relation of the event, whatever the mode resolver answered.  In
    particular, with both the ingress and the legacy relation present the
    resolver answers INVALID, the pass makes no call and leaves the blocking
    status, and the URL is published all the same. *)
Theorem ingress_data_provided_publishes_url
    (event : IngressPerAppDataProvidedEvent) (self : Charm)
    (config : CharmConfig) (info : TLSInformation) :
  charm_config self = inr config ->
  tls_information self = inr info ->
  exists self',
    _reconcile self = Returned tt self'
    /\ _on_ingress_data_provided event self
       = Returned tt
           (with_calls
              [ingress_provider_publish_url (relation event)
                 (ingress_url (external_hostname info)
                    (ingress_data self (relation event)))]
              self')
    /\ (is_ingress_related self && is_legacy_related self = true ->
        resolves_to self INVALID
        /\ unit_status self' = BlockedStatus "Both ingress and reverseproxy is related."
        /\ calls self' = calls self).
Proof.
  intros Hconfig Htls.
  destruct (reconcile_returns_when_ready self config info Hconfig Htls)
    as (self' & Hrun & Htls' & Hdata & Hinvalid).
  exists self'. split; [exact Hrun |]. split.
  - unfold _on_ingress_data_provided, validate_config_and_tls.
    rewrite Hconfig, Htls. unfold bind at 1. rewrite Hrun.
    unfold bind, TLSInformation_from_charm, read, call.
    rewrite Htls', Htls, Hdata. unfold ingress_url.
    now rewrite append_assoc.
  - intros Hboth. split; [| now apply Hinvalid].
    apply andb_true_iff in Hboth as [Hi Hl].
    eexists. apply validate_state_both_related; assumption.
Qed.

(** C8: when the TLS information cannot be built, the get-certificate action
    handler does not return: the [TLSNotReadyError] of the validation leaves
    the handler uncaught, with no status set and nothing reported to the
    action. *)
Theorem get_certificate_action_raises (event : ActionEvent) (self : Charm)
    (message : string) :
  tls_information self = inl message ->
  _on_get_certificate_action get_hostname_from_cert chain_as_pem event self = Raised (TLSNotReadyError message) self.
Proof.
  intros Htls. unfold _on_get_certificate_action, bind at 1, TLSInformation_validate.
  now rewrite Htls.
Qed.

(** C6: the outcome of the get-certificate action for a given hostname
    parameter.  Once the TLS validation has passed, the action is given the
    certificate, the ca and the chain of the certificate found for the
    hostname, or is failed with a message naming the hostname when the lookup
    finds none.  When the validation fails the handler raises instead, before
    any lookup. *)
Theorem get_certificate_action_outcome (event : ActionEvent) (self : Charm)
    (hostname : string) :
  dict_get "hostname" (params event) = Some hostname ->
  _on_get_certificate_action get_hostname_from_cert chain_as_pem event self
  = match tls_information self with
    | inl message => Raised (TLSNotReadyError message) self
    | inr _ =>
        match find (fun cert =>
                      String.eqb (get_hostname_from_cert (certificate cert)) hostname)
                   (provider_certificates self)
        with
        | Some cert =>
            Returned tt
              (with_calls
                 [event_set_results
                    [("certificate", certificate cert);
                     ("ca", ca cert);
                     ("chain", chain_as_pem cert)]]
                 self)
        | None =>
            Returned tt
              (with_calls
                 [event_fail
                    ("Missing or incomplete certificate data for " ++ hostname)%string]
                 self)
        end
    end.
Proof.
  intros Hparam.
  unfold _on_get_certificate_action, bind at 1, TLSInformation_validate.
  destruct (tls_information self) as [message | info]; [reflexivity |].
  unfold bind at 1, params_get. rewrite Hparam. unfold ret.
  unfold bind, get_provider_cert_with_hostname, read, call.
  destruct (find _ (provider_certificates self)); reflexivity.
Qed.

(** *** More on [_reconcile] *)

Lemma issued_after_build (status : StatusBase) (cs : list Call) (self : Charm) :
  issued self (with_status status (with_calls cs self)) = cs.
Proof. exact (issued_with_calls cs self). Qed.

Lemma issued_after_status (status : StatusBase) (self : Charm) :
  issued self (with_status status self) = [].
Proof.
  unfold issued; simpl. apply skipn_all.
Qed.

(** Case analysis on all the facts [_reconcile] reads. *)
Ltac reconcile_cases self :=
  unfold resolves_to in *; run_handler; simpl in *;
  let Hi := fresh "Hi" in
  let Hl := fresh "Hl" in
  let Htls := fresh "Htls" in
  let Hc := fresh "Hc" in
  destruct (ingress_relations self) eqn:Hi;
  destruct (reverseproxy_relations self) eqn:Hl;
  destruct (tls_information self) eqn:Htls;
  destruct (charm_config self) eqn:Hc;
  repeat (progress (simpl in *; try rewrite Hi in *; try rewrite Hl in *;
                    try rewrite Htls in *; try rewrite Hc in *)).

(** Rewrites the goal with the facts a case analysis has recorded. *)
Ltac use_facts :=
  simpl; repeat (match goal with H : ?f ?x = ?v |- _ => rewrite H end; simpl).

(** X1: a pass of [_reconcile] that returns has either been blocked by the
    mode resolver, and then it made no call and left a blocking status, or it
    made exactly one call, a configuration build, and set the active status. *)
Theorem reconcile_blocked_or_built (self self' : Charm) :
  _reconcile self = Returned tt self' ->
  (resolves_to self INVALID
   /\ issued self self' = []
   /\ exists message, unit_status self' = BlockedStatus message)
  \/ (~ resolves_to self INVALID
      /\ unit_status self' = ActiveStatus ""
      /\ exists build,
           issued self self' = [build] /\ is_configuration_build build = true).
Proof.
  intros H. reconcile_cases self; inversion H; subst; clear H;
    try (left; split; [eexists; reflexivity |];
         split; [apply issued_after_status | eexists; reflexivity]);
    right; (split; [intros Hinv; destruct Hinv as [? Hinv]; discriminate Hinv |]);
    (split; [reflexivity |]); eexists;
    (split; [apply issued_after_build | reflexivity]).
Qed.

(** The pass in ingress mode. *)
Lemma reconcile_ingress_run (self : Charm) (config : CharmConfig)
    (info : TLSInformation) :
  charm_config self = inr config ->
  tls_information self = inr info ->
  is_ingress_related self = true ->
  is_legacy_related self = false ->
  _reconcile self
  = Returned tt
      (with_status (ActiveStatus "")
         (with_calls
            [haproxy_service_reconcile_ingress config (ingress_requirers self)
               (external_hostname info)]
            self)).
Proof.
  intros Hconfig Htls Hi Hl. run_handler.
  rewrite Hi, Hl. simpl. rewrite Htls. simpl. rewrite Hconfig. simpl.
  rewrite Htls. reflexivity.
Qed.

(** X2: with a valid configuration, the build [_reconcile] makes is the one
    of the mode.  Ingress alone with the TLS information at hand: the ingress
    build, given the requirers and the external hostname.  The legacy relation
    alone: the legacy build, given the services of the relation, whatever the
    TLS state.  No relation: the default build, whatever the TLS state.  Each
    time the status becomes active. *)
Theorem reconcile_builds_for_mode (self : Charm) (config : CharmConfig) :
  charm_config self = inr config ->
  (is_ingress_related self = true -> is_legacy_related self = false ->
   forall info, tls_information self = inr info ->
   _reconcile self
   = Returned tt
       (with_status (ActiveStatus "")
          (with_calls
             [haproxy_service_reconcile_ingress config (ingress_requirers self)
                (external_hostname info)]
             self)))
  /\ (is_ingress_related self = false -> is_legacy_related self = true ->
      _reconcile self
      = Returned tt
          (with_status (ActiveStatus "")
             (with_calls
                [haproxy_service_reconcile_legacy config (reverseproxy_services self)]
                self)))
  /\ (is_ingress_related self = false -> is_legacy_related self = false ->
      _reconcile self
      = Returned tt
          (with_status (ActiveStatus "")
             (with_calls [haproxy_service_reconcile_default config] self))).
Proof.
  intros Hconfig. split; [| split].
  - intros Hi Hl info Htls. now apply reconcile_ingress_run.
  - intros Hi Hl. run_handler.
    rewrite Hi, Hl. simpl. rewrite Hconfig. reflexivity.
  - intros Hi Hl. run_handler.
    rewrite Hi, Hl. simpl. rewrite Hconfig. reflexivity.
Qed.

(** X3: with an invalid configuration, [_reconcile] raises the
    [CharmConfigInvalidError] of the configuration whenever the mode resolver
    does not answer INVALID, and it raises before anything was done: no call,
    the status as it was.  When the resolver answers INVALID the
    configuration is not read and the pass returns blocked. *)
Theorem reconcile_raises_on_invalid_config (self : Charm) (message : string) :
  charm_config self = inl message ->
  (~ resolves_to self INVALID ->
   _reconcile self = Raised (CharmConfigInvalidError message) self)
  /\ (forall blocked,
        _validate_state self = Returned INVALID blocked ->
        _reconcile self = Returned tt blocked).
Proof.
  intros Hconfig. split.
  - intros Hmode. reconcile_cases self; try discriminate Hconfig;
      try (exfalso; apply Hmode; eexists; reflexivity);
      inversion Hconfig; reflexivity.
  - intros blocked H. unfold _reconcile, bind at 1. rewrite H. reflexivity.
Qed.

(** X4: a pass that returns has set the status itself, so the status the
    unit showed before does not survive it: started from any other status
    the pass ends in the very same state. *)
Theorem reconcile_overwrites_status (self self' : Charm) (status : StatusBase) :
  _reconcile self = Returned tt self' ->
  _reconcile (with_status status self) = Returned tt self'.
Proof.
  intros H. reconcile_cases self; inversion H; subst; reflexivity.
Qed.

(** X5: a second pass of [_reconcile], started in the state a first pass
    returned in, returns too, makes the calls the first pass made (the
    configuration is built again, nothing is skipped) and ends with the same
    status. *)
Theorem reconcile_twice (self self1 : Charm) :
  _reconcile self = Returned tt self1 ->
  exists self2,
    _reconcile self1 = Returned tt self2
    /\ issued self1 self2 = issued self self1
    /\ unit_status self2 = unit_status self1.
Proof.
  intros H. reconcile_cases self; inversion H; subst; clear H; use_facts;
    eexists; (split; [reflexivity |]);
    rewrite ?issued_after_build, ?issued_after_status; split; reflexivity.
Qed.

Lemma reconcile_keeps_answers (self self' : Charm) :
  _reconcile self = Returned tt self' ->
  tls_information self' = tls_information self
  /\ provider_certificates self' = provider_certificates self.
Proof.
  intros H. reconcile_cases self; inversion H; subst; simpl; auto.
Qed.

(** *** More on [_reconcile_certificates] *)

(** X6: [_reconcile_certificates] raises exactly when the TLS information
    cannot be built; the exception is its [TLSNotReadyError], raised before
    any certificate was looked at: no request was made. *)
Theorem reconcile_certificates_raises_iff (self self' : Charm) (exc : Exception) :
  _reconcile_certificates get_hostname_from_cert self = Raised exc self' <->
  (self' = self
   /\ exists message,
        tls_information self = inl message /\ exc = TLSNotReadyError message).
Proof.
  rewrite reconcile_certificates_run.
  destruct (tls_information self) as [message | info]; split.
  - intros H. inversion H; subst. split; [reflexivity |]. now exists message.
  - intros (-> & m & Hm & ->). now inversion Hm.
  - discriminate.
  - intros (_ & m & Hm & _). discriminate Hm.
Qed.

(** X7: a run of [_reconcile_certificates] that returns made no request at
    all exactly when the provider lists at least one certificate and every
    listed certificate carries the desired hostname. *)
Theorem reconcile_certificates_silent_iff (self self' : Charm) :
  _reconcile_certificates get_hostname_from_cert self = Returned tt self' ->
  exists info,
    tls_information self = inr info
    /\ (issued self self' = [] <->
        provider_certificates self <> []
        /\ forall cert, In cert (provider_certificates self) ->
                        get_hostname_from_cert (certificate cert)
                        = external_hostname info).
Proof.
  rewrite reconcile_certificates_run.
  destruct (tls_information self) as [message | info]; [discriminate |].
  intros H. inversion H; subst. exists info. split; [reflexivity |].
  rewrite issued_with_calls. apply requests_for_nil.
Qed.


(** *** Handlers that run the two reconciliations *)

(** X9: on a config-changed event with a valid configuration and the TLS
    information at hand, the handler runs the pass of [_reconcile] and then
    the certificate reconciliation: the certificate requests follow the calls
    of the pass and the status is the one the pass set.  The certificates are
    reconciled also when the pass was blocked with both relations present. *)
Theorem config_changed_reconciles_both (self : Charm)
    (config : CharmConfig) (info : TLSInformation) :
  charm_config self = inr config ->
  tls_information self = inr info ->
  exists self1,
    _reconcile self = Returned tt self1
    /\ _on_config_changed get_hostname_from_cert self
       = Returned tt
           (with_calls
              (requests_for get_hostname_from_cert (external_hostname info)
                 (provider_certificates self))
              self1)
    /\ (is_ingress_related self && is_legacy_related self = true ->
        unit_status self1 = BlockedStatus "Both ingress and reverseproxy is related."
        /\ issued self
             (with_calls
                (requests_for get_hostname_from_cert (external_hostname info)
                   (provider_certificates self))
                self1)
           = requests_for get_hostname_from_cert (external_hostname info)
               (provider_certificates self)).
Proof.
  intros Hconfig Htls.
  destruct (reconcile_returns_when_ready self config info Hconfig Htls)
    as (self1 & Hrun & Htls1 & _ & Hinvalid).
  destruct (reconcile_keeps_answers self self1 Hrun) as [_ Hcerts].
  exists self1. split; [exact Hrun |]. split.
  - unfold _on_config_changed, validate_config_and_tls. rewrite Hconfig.
    unfold bind at 1. rewrite Hrun, reconcile_certificates_run.
    now rewrite Htls1, Htls, Hcerts.
  - intros Hboth. destruct (Hinvalid Hboth) as [Hstatus Hcalls].
    split; [exact Hstatus |].
    unfold issued. cbn [with_calls calls]. rewrite Hcalls.
    rewrite skipn_app, skipn_all, Nat.sub_diag. reflexivity.
Qed.

(** X10: on an ingress data-provided event with ingress alone related, a
    valid configuration and the TLS information at hand, the handler builds
    the ingress configuration and then publishes the URL, and the hostname of
    the URL is the one the configuration was built with; the unit ends
    active. *)
Theorem ingress_data_provided_builds_then_publishes
    (event : IngressPerAppDataProvidedEvent) (self : Charm)
    (config : CharmConfig) (info : TLSInformation) :
  charm_config self = inr config ->
  tls_information self = inr info ->
  is_ingress_related self = true ->
  is_legacy_related self = false ->
  _on_ingress_data_provided event self
  = Returned tt
      (with_status (ActiveStatus "")
         (with_calls
            [haproxy_service_reconcile_ingress config (ingress_requirers self)
               (external_hostname info);
             ingress_provider_publish_url (relation event)
               (ingress_url (external_hostname info)
                  (ingress_data self (relation event)))]
            self)).
Proof.
  intros Hconfig Htls Hi Hl.
  unfold _on_ingress_data_provided, validate_config_and_tls.
  rewrite Hconfig, Htls. unfold bind at 1.
  rewrite (reconcile_ingress_run self config info Hconfig Htls Hi Hl).
  unfold bind, TLSInformation_from_charm, read, call.
  cbn [with_status with_calls tls_information ingress_data]. rewrite Htls.
  unfold ingress_url. rewrite append_assoc.
  unfold with_status, with_calls.
  cbn [ingress_relations reverseproxy_relations charm_config tls_information
       provider_certificates ingress_requirers reverseproxy_services
       ingress_data unit_status calls].
  now rewrite <- app_assoc.
Qed.

(** Calls made before a pass do not change what the pass does. *)
Lemma reconcile_after_calls (cs : list Call) (self self1 : Charm) :
  _reconcile self = Returned tt self1 ->
  exists self',
    _reconcile (with_calls cs self) = Returned tt self'
    /\ issued self self' = cs ++ issued self self1
    /\ unit_status self' = unit_status self1.
Proof.
  intros H. reconcile_cases self; inversion H; subst; clear H; use_facts;
    eexists; (split; [reflexivity |]);
    rewrite ?issued_after_build, ?issued_after_status;
    (split; [| reflexivity]);
    rewrite ?app_nil_r; try reflexivity;
    unfold issued; simpl;
    rewrite <- ?app_assoc, skipn_app, skipn_all, Nat.sub_diag; reflexivity.
Qed.

(** With a valid configuration the pass returns. *)
Lemma reconcile_returns_when_configured (self : Charm) (config : CharmConfig) :
  charm_config self = inr config ->
  exists self1, _reconcile self = Returned tt self1.
Proof.
  intros Hconfig. reconcile_cases self; try discriminate Hconfig;
    eexists; reflexivity.
Qed.

(** X14: when the certificates relation is joined with a valid
    configuration and the TLS information at hand while the provider lists no
    certificate yet, the handler generates one key and then makes one signing
    request for the external hostname, and leaves the status as it was. *)
Theorem certificates_relation_joined_first_request (self : Charm)
    (config : CharmConfig) (info : TLSInformation) :
  charm_config self = inr config ->
  tls_information self = inr info ->
  provider_certificates self = [] ->
  _on_certificates_relation_joined get_hostname_from_cert self
  = Returned tt
      (with_calls
         [tls_generate_private_key (external_hostname info);
          tls_request_certificate (external_hostname info)]
         self).
Proof.
  intros Hconfig Htls Hcerts.
  unfold _on_certificates_relation_joined, validate_config_and_tls.
  rewrite Hconfig, Htls, reconcile_certificates_run, Htls, Hcerts.
  reflexivity.
Qed.

(** X15: on a certificate-available event with a valid configuration and
    the TLS information at hand, the certificate is handed to the TLS service
    first and the pass of [_reconcile] runs after it: the handler returns, its
    calls are that one followed by the calls of the pass, and the status is
    the one the pass sets. *)
Theorem certificate_available_then_reconcile (event : CertificateAvailableEvent)
    (self : Charm) (config : CharmConfig) (info : TLSInformation) :
  charm_config self = inr config ->
  tls_information self = inr info ->
  exists self1 self',
    _reconcile self = Returned tt self1
    /\ _on_certificate_available event self = Returned tt self'
    /\ issued self self'
       = tls_certificate_available (available_certificate event) :: issued self self1
    /\ unit_status self' = unit_status self1.
Proof.
  intros Hconfig Htls.
  destruct (reconcile_returns_when_configured self config Hconfig) as [self1 Hrun].
  destruct (reconcile_after_calls
              [tls_certificate_available (available_certificate event)]
              self self1 Hrun) as (self' & Hrun' & Hissued & Hstatus).
  exists self1, self'. split; [exact Hrun |]. split; [| split; assumption].
  unfold _on_certificate_available, validate_config_and_tls.
  rewrite Hconfig, Htls.
  unfold bind at 1, TLSInformation_validate. rewrite Htls.
  unfold bind at 1, call. exact Hrun'.
Qed.

(** X16: on an all-certificates-invalidated event with a valid
    configuration, whatever the TLS state, the TLS service is told first and
    the pass of [_reconcile] runs after it: the handler returns, its calls are
    that one followed by the calls of the pass, and the status is the one the
    pass sets. *)
Theorem all_certificate_invalidated_then_reconcile (self : Charm)
    (config : CharmConfig) :
  charm_config self = inr config ->
  exists self1 self',
    _reconcile self = Returned tt self1
    /\ _on_all_certificate_invalidated self = Returned tt self'
    /\ issued self self' = tls_all_certificate_invalidated :: issued self self1
    /\ unit_status self' = unit_status self1.
Proof.
  intros Hconfig.
  destruct (reconcile_returns_when_configured self config Hconfig) as [self1 Hrun].
  destruct (reconcile_after_calls [tls_all_certificate_invalidated]
              self self1 Hrun) as (self' & Hrun' & Hissued & Hstatus).
  exists self1, self'. split; [exact Hrun |]. split; [| split; assumption].
  unfold _on_all_certificate_invalidated, validate_config_and_tls.
  rewrite Hconfig. unfold bind at 1, call. exact Hrun'.
Qed.

(** X17: on an http-backend-available event with the legacy relation alone
    and a valid configuration, the legacy configuration is built from the
    services of the relation and the unit becomes active, whether or not the
    TLS information can be built. *)
Theorem http_backend_available_builds_legacy (self : Charm) (config : CharmConfig) :
  charm_config self = inr config ->
  is_ingress_related self = false ->
  is_legacy_related self = true ->
  _on_http_backend_available self
  = Returned tt
      (with_status (ActiveStatus "")
         (with_calls
            [haproxy_service_reconcile_legacy config (reverseproxy_services self)]
            self)).
Proof.
  intros Hconfig Hi Hl.
  unfold _on_http_backend_available, validate_config_and_tls.
  rewrite Hconfig. run_handler. rewrite Hi, Hl. simpl. rewrite Hconfig.
  reflexivity.
Qed.

(** *** More on the get-certificate action *)

(** X11: run without a [hostname] parameter while the TLS validation
    passes, the get-certificate action raises [KeyError]: the action is not
    failed with a message and nothing is reported to it. *)
Theorem get_certificate_action_missing_parameter (event : ActionEvent)
    (self : Charm) (info : TLSInformation) :
  tls_information self = inr info ->
  dict_get "hostname" (params event) = None ->
  _on_get_certificate_action get_hostname_from_cert chain_as_pem event self
  = Raised (KeyError "hostname") self.
Proof.
  intros Htls Hparam.
  unfold _on_get_certificate_action, bind at 1, TLSInformation_validate.
  rewrite Htls. unfold bind, params_get. now rewrite Hparam.
Qed.

(** X12: once the TLS validation has passed, the get-certificate action
    reports a certificate exactly when the provider lists one that carries
    the hostname asked for, and the certificate it reports carries that
    hostname; otherwise the action is failed.  Either way the unit status is
    not touched. *)
Theorem get_certificate_action_reports_iff (event : ActionEvent) (self : Charm)
    (info : TLSInformation) (hostname : string) :
  tls_information self = inr info ->
  dict_get "hostname" (params event) = Some hostname ->
  exists self',
    _on_get_certificate_action get_hostname_from_cert chain_as_pem event self
    = Returned tt self'
    /\ unit_status self' = unit_status self
    /\ ((exists cert,
           In cert (provider_certificates self)
           /\ get_hostname_from_cert (certificate cert) = hostname
           /\ issued self self'
              = [event_set_results
                   [("certificate", certificate cert);
                    ("ca", ca cert);
                    ("chain", chain_as_pem cert)]])
        \/ ((forall cert, In cert (provider_certificates self) ->
                          get_hostname_from_cert (certificate cert) <> hostname)
            /\ issued self self'
               = [event_fail
                    ("Missing or incomplete certificate data for " ++ hostname)%string])).
Proof.
  intros Htls Hparam.
  unfold _on_get_certificate_action, bind at 1, TLSInformation_validate.
  rewrite Htls. unfold bind at 1, params_get. rewrite Hparam. unfold ret.
  unfold bind, get_provider_cert_with_hostname, read, call.
  destruct (find _ (provider_certificates self)) as [cert |] eqn:Hfind;
    eexists; (split; [reflexivity |]); (split; [reflexivity |]);
    rewrite issued_with_calls.
  - left. exists cert. apply find_some in Hfind as [Hin Heq].
    apply String.eqb_eq in Heq. auto.
  - right. split; [| reflexivity].
    intros cert Hin. apply String.eqb_neq.
    exact (find_none _ _ Hfind cert Hin).
Qed.

(** *** The proxy modes *)

(** X13: two proxy modes compare equal by value exactly when they are the
    same member: the four values are distinct. *)
Theorem ProxyMode_eqb_spec (a b : ProxyMode) :
  ProxyMode_eqb a b = true <-> a = b.
Proof.
  destruct a, b; split; intros H; try reflexivity; discriminate H.
Qed.

End Properties.

(** ** The properties on the deployment *)

Example hostname_of_cert_for : hostname_of (cert_for "svc.example.com") = "svc.example.com".
Proof. reflexivity. Qed.

(** The five branches of the decision order, each on a deployment. *)
Lemma validate_state_decision_order_witness :
  _validate_state both_related
  = Returned INVALID
      (with_status (BlockedStatus "Both ingress and reverseproxy is related.") both_related)
  /\ _validate_state ingress_without_tls
     = Returned INVALID
         (with_status (BlockedStatus "Hostname not configured.") ingress_without_tls)
  /\ _validate_state after_hostname_change = Returned INGRESS after_hostname_change
  /\ _validate_state (deployed [] [reverseproxy_relation] tls_not_ready [])
     = Returned LEGACY (deployed [] [reverseproxy_relation] tls_not_ready [])
  /\ _validate_state (deployed [] [] tls_not_ready [])
     = Returned NOPROXY (deployed [] [] tls_not_ready []).
Proof.
  split; [| split; [| split; [| split]]].
  - apply (proj1 (validate_state_decision_order both_related)); reflexivity.
  - apply (proj1 (proj2 (validate_state_decision_order ingress_without_tls)));
      reflexivity.
  - apply (proj1 (proj2 (proj2 (validate_state_decision_order after_hostname_change))));
      reflexivity.
  - apply (proj1 (proj2 (proj2 (proj2
             (validate_state_decision_order
                (deployed [] [reverseproxy_relation] tls_not_ready []))))));
      reflexivity.
  - apply (proj2 (proj2 (proj2 (proj2
             (validate_state_decision_order (deployed [] [] tls_not_ready []))))));
      reflexivity.
Defined.

(** C2 as stated fails: with the ingress relation alone and the hostname not
    configured the resolver answers INVALID, though the legacy relation is
    absent. *)
Lemma invalid_without_legacy_relation :
  resolves_to ingress_without_tls INVALID
  /\ is_legacy_related ingress_without_tls = false
  /\ ~ invalid_iff_both_related ingress_without_tls.
Proof.
  assert (H : resolves_to ingress_without_tls INVALID) by (eexists; reflexivity).
  split; [exact H |]. split; [reflexivity |].
  intros [Hboth _]. destruct (Hboth H) as [_ Hlegacy]. discriminate Hlegacy.
Qed.

(** With the legacy relation alone the answer is LEGACY with or without the
    hostname configured. *)
Lemma validate_state_invalid_iff_witness :
  resolves_to (deployed [] [reverseproxy_relation] (tls_ready "svc.example.com") [])
    LEGACY.
Proof.
  apply (proj1 (proj2 (proj2 (validate_state_invalid_iff legacy_only)))
           (deployed [] [reverseproxy_relation] (tls_ready "svc.example.com") [])
           LEGACY eq_refl eq_refl (or_introl eq_refl)).
  eexists. reflexivity.
Defined.

(** [_reconcile] on the deployment with both relations present. *)
Lemma reconcile_stops_when_invalid_witness :
  _reconcile both_related
  = Returned tt
      (with_status (BlockedStatus "Both ingress and reverseproxy is related.") both_related)
  /\ calls (with_status (BlockedStatus "Both ingress and reverseproxy is related.")
              both_related)
     = calls both_related
  /\ (exists message,
        unit_status
          (with_status (BlockedStatus "Both ingress and reverseproxy is related.")
             both_related)
        = BlockedStatus message)
  /\ (forall message,
        unit_status
          (with_status (BlockedStatus "Both ingress and reverseproxy is related.")
             both_related)
        <> ActiveStatus message).
Proof.
  apply (reconcile_stops_when_invalid both_related). reflexivity.
Defined.

(** Two runs in a row on [stale_only]. *)
Lemma reconcile_certificates_twice_witness :
  exists self2,
    _reconcile_certificates hostname_of (with_calls stale_only_requests stale_only)
    = Returned tt self2
    /\ issued (with_calls stale_only_requests stale_only) self2
       = issued stale_only (with_calls stale_only_requests stale_only)
    /\ (forall request,
          In request (issued (with_calls stale_only_requests stale_only) self2) ->
          In request (issued stale_only (with_calls stale_only_requests stale_only)))
    /\ tls_information (with_calls stale_only_requests stale_only)
       = tls_information stale_only
    /\ provider_certificates (with_calls stale_only_requests stale_only)
       = provider_certificates stale_only
    /\ exists info,
         tls_information stale_only = inr info
         /\ (issued (with_calls stale_only_requests stale_only) self2 = [] <->
             provider_certificates stale_only <> []
             /\ forall cert, In cert (provider_certificates stale_only) ->
                             hostname_of (certificate cert) = external_hostname info).
Proof.
  apply (reconcile_certificates_twice hostname_of stale_only). reflexivity.
Defined.

(** C3 as stated fails: on [stale_only] the second run, with the hostname and
    the provider's list unchanged, asks again for the revocation, generates a
    key again and makes the signing request again. *)
Lemma second_run_repeats_requests :
  _reconcile_certificates hostname_of stale_only
  = Returned tt (with_calls stale_only_requests stale_only)
  /\ _reconcile_certificates hostname_of (with_calls stale_only_requests stale_only)
     = Returned tt
         (with_calls stale_only_requests (with_calls stale_only_requests stale_only))
  /\ issued (with_calls stale_only_requests stale_only)
       (with_calls stale_only_requests (with_calls stale_only_requests stale_only))
     = stale_only_requests
  /\ ~ second_run_adds_nothing hostname_of stale_only.
Proof.
  split; [reflexivity |]. split; [reflexivity |]. split; [reflexivity |].
  intros H.
  specialize (H (with_calls stale_only_requests stale_only)
                (with_calls stale_only_requests
                   (with_calls stale_only_requests stale_only))
                eq_refl eq_refl).
  vm_compute in H. discriminate H.
Qed.

(** The second run on [stale_only] is not silent: it repeats the three
    requests of the first. *)
Example reconcile_certificates_second_run :
  _reconcile_certificates hostname_of (with_calls stale_only_requests stale_only)
  = Returned tt
      (with_calls stale_only_requests (with_calls stale_only_requests stale_only)).
Proof. reflexivity. Qed.

(** C4 as stated fails: the desired hostname has changed, the certificate for
    the old hostname is revoked, but a certificate for the new hostname is
    already known, so no key is generated and no signing request is made. *)
Lemma no_signing_request_when_certificate_known :
  _reconcile_certificates hostname_of after_hostname_change
  = Returned tt
      (with_calls
         [certificates_request_certificate_revocation (encode "CSR old.example.com")]
         after_hostname_change)
  /\ ~ reissues_after_change hostname_of "old.example.com" after_hostname_change.
Proof.
  split; [reflexivity |].
  intros H.
  assert (Hneq : external_hostname (mkTLSInformation "svc.example.com")
                 <> "old.example.com") by discriminate.
  specialize (H (mkTLSInformation "svc.example.com")
                (with_calls
                   [certificates_request_certificate_revocation
                      (encode "CSR old.example.com")]
                   after_hostname_change)
                eq_refl Hneq eq_refl).
  vm_compute in H. discriminate H.
Qed.

(** The requests of a run on [stale_only], where no certificate carries the
    desired hostname. *)
Lemma reconcile_certificates_requests_witness :
  exists self',
    _reconcile_certificates hostname_of stale_only = Returned tt self'
    /\ (forallb (mismatching hostname_of "svc.example.com")
          (provider_certificates stale_only) = true ->
        issued stale_only self'
        = map revocation_of
            (filter (mismatching hostname_of "svc.example.com")
               (provider_certificates stale_only))
          ++ [tls_generate_private_key "svc.example.com";
              tls_request_certificate "svc.example.com"])
    /\ (forallb (mismatching hostname_of "svc.example.com")
          (provider_certificates stale_only) = false ->
        issued stale_only self'
        = map revocation_of
            (filter (mismatching hostname_of "svc.example.com")
               (provider_certificates stale_only))).
Proof.
  apply (reconcile_certificates_requests hostname_of stale_only
           (mkTLSInformation "svc.example.com")).
  reflexivity.
Defined.



(** Of the two certificates of [two_matching] that carry the desired
    hostname, the first is neither revoked nor held. *)
Example two_matching_run :
  revoke_mismatching hostname_of "svc.example.com"
    (provider_certificates two_matching) None two_matching
  = Returned (Some (provider_cert "svc.example.com"))
      (with_calls
         [certificates_request_certificate_revocation (encode "CSR old.example.com")]
         two_matching).
Proof. reflexivity. Qed.

(** C5 as stated fails: before the hostname is configured the decorator
    stops a certificate-invalidated event with reason "revoked": the event is
    deferred, the TLS service is told nothing, and the status does not name
    the hostname. *)
Lemma invalidated_event_deferred_when_tls_not_ready :
  _on_certificate_invalidated hostname_of
    (mkCertificateInvalidatedEvent "revoked" (cert_for "svc.example.com"))
    ingress_without_tls
  = Returned tt (with_calls [event_defer] ingress_without_tls)
  /\ leaves_tls_service hostname_of
       (issued ingress_without_tls (with_calls [event_defer] ingress_without_tls))
  /\ ~ invalidation_surfaced hostname_of
         (mkCertificateInvalidatedEvent "revoked" (cert_for "svc.example.com"))
         ingress_without_tls.
Proof.
  split; [reflexivity |]. split.
  - intros desired service. reflexivity.
  - intros (self' & Hrun & Hstatus).
    vm_compute in Hrun. inversion Hrun; subst self'.
    vm_compute in Hstatus. discriminate Hstatus.
Qed.

(** The three kinds of reason on one deployment. *)
Lemma certificate_invalidated_by_reason_witness :
  (_on_certificate_invalidated hostname_of
     (mkCertificateInvalidatedEvent "revoked" (cert_for "svc.example.com"))
     after_hostname_change
   = Returned tt
       (with_status
          (MaintenanceStatus "Waiting for new certificate for hostname: svc.example.com")
          (with_calls [tls_certificate_invalidated (cert_for "svc.example.com")]
             after_hostname_change))
   /\ drops_and_requests hostname_of
        (issued after_hostname_change
           (with_status
              (MaintenanceStatus
                 "Waiting for new certificate for hostname: svc.example.com")
              (with_calls [tls_certificate_invalidated (cert_for "svc.example.com")]
                 after_hostname_change)))
        (cert_for "svc.example.com"))
  /\ (_on_certificate_invalidated hostname_of
        (mkCertificateInvalidatedEvent "expired" (cert_for "svc.example.com"))
        after_hostname_change
      = Returned tt
          (with_status
             (MaintenanceStatus "Waiting for new certificate for hostname: svc.example.com")
             (with_calls [tls_certificate_expiring (cert_for "svc.example.com")]
                after_hostname_change))
      /\ only_marks_expiring hostname_of
           (issued after_hostname_change
              (with_status
                 (MaintenanceStatus
                    "Waiting for new certificate for hostname: svc.example.com")
                 (with_calls [tls_certificate_expiring (cert_for "svc.example.com")]
                    after_hostname_change)))
           (cert_for "svc.example.com"))
  /\ (_on_certificate_invalidated hostname_of
        (mkCertificateInvalidatedEvent "superseded" (cert_for "svc.example.com"))
        after_hostname_change
      = Returned tt
          (with_status
             (MaintenanceStatus "Waiting for new certificate for hostname: svc.example.com")
             after_hostname_change)
      /\ leaves_tls_service hostname_of
           (issued after_hostname_change
              (with_status
                 (MaintenanceStatus
                    "Waiting for new certificate for hostname: svc.example.com")
                 after_hostname_change))).
Proof.
  split; [| split].
  - apply (proj1 (certificate_invalidated_by_reason hostname_of
                    (mkCertificateInvalidatedEvent "revoked" (cert_for "svc.example.com"))
                    after_hostname_change _ _ eq_refl eq_refl)).
    reflexivity.
  - apply (proj2 (proj1 (proj2 (certificate_invalidated_by_reason hostname_of
                    (mkCertificateInvalidatedEvent "expired" (cert_for "svc.example.com"))
                    after_hostname_change _ _ eq_refl eq_refl)) eq_refl)).
  - apply (proj2 (proj2 (certificate_invalidated_by_reason hostname_of
                    (mkCertificateInvalidatedEvent "superseded" (cert_for "svc.example.com"))
                    after_hostname_change _ _ eq_refl eq_refl)));
      discriminate.
Defined.

(** The TLS service on the revoked certificate: from tracking it to having
    asked for a fresh one. *)
Example revoked_certificate_dropped :
  tls_service_after hostname_of "svc.example.com"
    (issued after_hostname_change
       (with_status
          (MaintenanceStatus "Waiting for new certificate for hostname: svc.example.com")
          (with_calls
             [@tls_certificate_invalidated Config Requirers Backends
                (cert_for "svc.example.com")]
             after_hostname_change)))
    (mkTLSRelationService [cert_for "svc.example.com"] [] [])
  = mkTLSRelationService [] [] ["svc.example.com"].
Proof. reflexivity. Qed.

(** The data-provided event on the deployment with both relations present. *)
Lemma ingress_data_provided_publishes_url_witness :
  exists self',
    _reconcile both_related = Returned tt self'
    /\ _on_ingress_data_provided (mkIngressPerAppDataProvidedEvent ingress_relation)
         both_related
       = Returned tt
           (with_calls
              [ingress_provider_publish_url ingress_relation
                 (ingress_url "svc.example.com"
                    (ingress_data both_related ingress_relation))]
              self')
    /\ (is_ingress_related both_related && is_legacy_related both_related = true ->
        resolves_to both_related INVALID
        /\ unit_status self' = BlockedStatus "Both ingress and reverseproxy is related."
        /\ calls self' = calls both_related).
Proof.
  apply (ingress_data_provided_publishes_url
           (mkIngressPerAppDataProvidedEvent ingress_relation) both_related
           [("external-hostname", "svc.example.com")]
           (mkTLSInformation "svc.example.com"));
    reflexivity.
Defined.

(** With both relations present the unit ends blocked, no configuration was
    built, and the URL went out. *)
Example ingress_data_provided_when_invalid :
  _on_ingress_data_provided (mkIngressPerAppDataProvidedEvent ingress_relation)
    both_related
  = Returned tt
      (with_calls
         [ingress_provider_publish_url ingress_relation
            "https://svc.example.com/prod-wordpress/"]
         (with_status (BlockedStatus "Both ingress and reverseproxy is related.")
            both_related)).
Proof. reflexivity. Qed.

(** The action run before the hostname is configured. *)
Lemma get_certificate_action_raises_witness :
  _on_get_certificate_action hostname_of pem_chain
    (get_certificate "svc.example.com") ingress_without_tls
  = Raised (TLSNotReadyError "Hostname not configured.") ingress_without_tls.
Proof.
  apply (get_certificate_action_raises hostname_of pem_chain). reflexivity.
Defined.

(** The action asked for a hostname whose certificate the provider lists,
    before the hostname is configured: the handler raises. *)
Lemma get_certificate_action_outcome_witness :
  _on_get_certificate_action hostname_of pem_chain
    (get_certificate "svc.example.com")
    (deployed [] [] tls_not_ready [provider_cert "svc.example.com"])
  = Raised (TLSNotReadyError "Hostname not configured.")
      (deployed [] [] tls_not_ready [provider_cert "svc.example.com"]).
Proof.
  exact (get_certificate_action_outcome hostname_of pem_chain
           (get_certificate "svc.example.com")
           (deployed [] [] tls_not_ready [provider_cert "svc.example.com"])
           "svc.example.com" eq_refl).
Defined.

(** Once the TLS validation passes, the action answers as the lookup goes. *)
Example get_certificate_found :
  _on_get_certificate_action hostname_of pem_chain
    (get_certificate "svc.example.com") after_hostname_change
  = Returned tt
      (with_calls
         [event_set_results
            [("certificate", "CN=svc.example.com");
             ("ca", "CA");
             ("chain", "CA,CN=svc.example.com")]]
         after_hostname_change).
Proof. reflexivity. Qed.

Example get_certificate_missing :
  _on_get_certificate_action hostname_of pem_chain
    (get_certificate "www.example.com") after_hostname_change
  = Returned tt
      (with_calls
         [event_fail "Missing or incomplete certificate data for www.example.com"]
         after_hostname_change).
Proof. reflexivity. Qed.

(** ** More properties on the deployment *)

(** The pass on [settled] builds the ingress configuration. *)
Lemma reconcile_blocked_or_built_witness :
  (resolves_to settled INVALID
   /\ issued settled settled_built = []
   /\ exists message, unit_status settled_built = BlockedStatus message)
  \/ (~ resolves_to settled INVALID
      /\ unit_status settled_built = ActiveStatus ""
      /\ exists build,
           issued settled settled_built = [build]
           /\ is_configuration_build build = true).
Proof.
  apply (reconcile_blocked_or_built settled settled_built). reflexivity.
Defined.

(** The three builds, each on a deployment; the legacy and the default build
    are made with no hostname configured. *)
Lemma reconcile_builds_for_mode_witness :
  _reconcile settled = Returned tt settled_built
  /\ _reconcile legacy_only = Returned tt legacy_built
  /\ _reconcile unrelated
     = Returned tt
         (with_status (ActiveStatus "")
            (with_calls [haproxy_service_reconcile_default deployed_config] unrelated)).
Proof.
  split; [| split].
  - apply (proj1 (reconcile_builds_for_mode settled deployed_config eq_refl)
             eq_refl eq_refl (mkTLSInformation "svc.example.com") eq_refl).
  - apply (proj1 (proj2 (reconcile_builds_for_mode legacy_only deployed_config eq_refl))
             eq_refl eq_refl).
  - apply (proj2 (proj2 (reconcile_builds_for_mode unrelated deployed_config eq_refl))
             eq_refl eq_refl).
Defined.

(** With the legacy relation alone and an invalid configuration the pass
    raises. *)
Lemma reconcile_raises_on_invalid_config_witness :
  _reconcile legacy_bad_config
  = Raised (CharmConfigInvalidError "global-maxconn must be positive.") legacy_bad_config.
Proof.
  apply (proj1 (reconcile_raises_on_invalid_config legacy_bad_config
                  "global-maxconn must be positive." eq_refl)).
  intros [blocked H]. discriminate H.
Defined.

(** With both relations present the invalid configuration is not read. *)
Example reconcile_bad_config_blocked :
  _reconcile (with_config (inl "global-maxconn must be positive.") both_related)
  = Returned tt
      (with_status (BlockedStatus "Both ingress and reverseproxy is related.")
         (with_config (inl "global-maxconn must be positive.") both_related)).
Proof. reflexivity. Qed.

(** A blocked unit whose ingress relation has gone becomes active again. *)
Lemma reconcile_overwrites_status_witness :
  _reconcile
    (with_status (BlockedStatus "Both ingress and reverseproxy is related.") legacy_only)
  = Returned tt legacy_built.
Proof.
  apply (reconcile_overwrites_status legacy_only legacy_built). reflexivity.
Defined.

(** Two passes in a row in legacy mode. *)
Lemma reconcile_twice_witness :
  exists self2,
    _reconcile legacy_built = Returned tt self2
    /\ issued legacy_built self2 = issued legacy_only legacy_built
    /\ unit_status self2 = unit_status legacy_built.
Proof.
  apply (reconcile_twice legacy_only legacy_built). reflexivity.
Defined.

(** On [settled] the certificate reconciliation has nothing to ask for. *)
Lemma reconcile_certificates_silent_iff_witness :
  exists info,
    tls_information settled = inr info
    /\ (issued settled settled = [] <->
        provider_certificates settled <> []
        /\ forall cert, In cert (provider_certificates settled) ->
                        hostname_of (certificate cert) = external_hostname info).
Proof.
  apply (reconcile_certificates_silent_iff hostname_of settled settled). reflexivity.
Defined.


(** A config-changed event with both relations present. *)
Lemma config_changed_reconciles_both_witness :
  exists self1,
    _reconcile both_related = Returned tt self1
    /\ _on_config_changed hostname_of both_related
       = Returned tt
           (with_calls
              (requests_for hostname_of "svc.example.com"
                 (provider_certificates both_related))
              self1)
    /\ (is_ingress_related both_related && is_legacy_related both_related = true ->
        unit_status self1 = BlockedStatus "Both ingress and reverseproxy is related."
        /\ issued both_related
             (with_calls
                (requests_for hostname_of "svc.example.com"
                   (provider_certificates both_related))
                self1)
           = requests_for hostname_of "svc.example.com"
               (provider_certificates both_related)).
Proof.
  apply (config_changed_reconciles_both hostname_of both_related deployed_config
           (mkTLSInformation "svc.example.com"));
    reflexivity.
Defined.

(** A config-changed event once the hostname has changed: the ingress
    configuration is built for the new hostname and the certificate of the old
    one is revoked. *)
Example config_changed_after_hostname_change :
  _on_config_changed hostname_of after_hostname_change
  = Returned tt
      (with_status (ActiveStatus "")
         (with_calls
            [haproxy_service_reconcile_ingress deployed_config ["prod-wordpress"]
               "svc.example.com";
             certificates_request_certificate_revocation (encode "CSR old.example.com")]
            after_hostname_change)).
Proof. reflexivity. Qed.

(** The data-provided event on [settled]. *)
Lemma ingress_data_provided_builds_then_publishes_witness :
  _on_ingress_data_provided (mkIngressPerAppDataProvidedEvent ingress_relation) settled
  = Returned tt
      (with_status (ActiveStatus "")
         (with_calls
            [haproxy_service_reconcile_ingress deployed_config
               (ingress_requirers settled) "svc.example.com";
             ingress_provider_publish_url ingress_relation
               (ingress_url "svc.example.com" (ingress_data settled ingress_relation))]
            settled)).
Proof.
  apply (ingress_data_provided_builds_then_publishes
           (mkIngressPerAppDataProvidedEvent ingress_relation) settled
           deployed_config (mkTLSInformation "svc.example.com"));
    reflexivity.
Defined.

(** The action run with no parameter at all. *)
Lemma get_certificate_action_missing_parameter_witness :
  _on_get_certificate_action hostname_of pem_chain (mkActionEvent []) settled
  = Raised (KeyError "hostname") settled.
Proof.
  apply (get_certificate_action_missing_parameter hostname_of pem_chain
           (mkActionEvent []) settled (mkTLSInformation "svc.example.com"));
    reflexivity.
Defined.

(** The action asked for the hostname of the second listed certificate. *)
Lemma get_certificate_action_reports_iff_witness :
  exists self',
    _on_get_certificate_action hostname_of pem_chain
      (get_certificate "svc.example.com") after_hostname_change
    = Returned tt self'
    /\ unit_status self' = unit_status after_hostname_change
    /\ ((exists cert,
           In cert (provider_certificates after_hostname_change)
           /\ hostname_of (certificate cert) = "svc.example.com"
           /\ issued after_hostname_change self'
              = [event_set_results
                   [("certificate", certificate cert);
                    ("ca", ca cert);
                    ("chain", pem_chain cert)]])
        \/ ((forall cert, In cert (provider_certificates after_hostname_change) ->
                          hostname_of (certificate cert) <> "svc.example.com")
            /\ issued after_hostname_change self'
               = [event_fail
                    ("Missing or incomplete certificate data for "
                     ++ "svc.example.com")%string])).
Proof.
  apply (get_certificate_action_reports_iff hostname_of pem_chain
           (get_certificate "svc.example.com") after_hostname_change
           (mkTLSInformation "svc.example.com") "svc.example.com");
    reflexivity.
Defined.

(** The certificates relation joined before any certificate exists. *)
Lemma certificates_relation_joined_first_request_witness :
  _on_certificates_relation_joined hostname_of awaiting_certificate
  = Returned tt
      (with_calls
         [tls_generate_private_key "svc.example.com";
          tls_request_certificate "svc.example.com"]
         awaiting_certificate).
Proof.
  apply (certificates_relation_joined_first_request hostname_of awaiting_certificate
           deployed_config (mkTLSInformation "svc.example.com"));
    reflexivity.
Defined.

(** The certificate of the desired hostname becomes available on [settled]. *)
Lemma certificate_available_then_reconcile_witness :
  exists self1 self',
    _reconcile settled = Returned tt self1
    /\ _on_certificate_available
         (mkCertificateAvailableEvent (cert_for "svc.example.com")) settled
       = Returned tt self'
    /\ issued settled self'
       = tls_certificate_available
           (available_certificate
              (mkCertificateAvailableEvent (cert_for "svc.example.com")))
         :: issued settled self1
    /\ unit_status self' = unit_status self1.
Proof.
  apply (certificate_available_then_reconcile
           (mkCertificateAvailableEvent (cert_for "svc.example.com")) settled
           deployed_config (mkTLSInformation "svc.example.com"));
    reflexivity.
Defined.

Example certificate_available_on_settled :
  _on_certificate_available
    (mkCertificateAvailableEvent (cert_for "svc.example.com")) settled
  = Returned tt
      (with_status (ActiveStatus "")
         (with_calls
            [tls_certificate_available (cert_for "svc.example.com");
             haproxy_service_reconcile_ingress deployed_config ["prod-wordpress"]
               "svc.example.com"]
            settled)).
Proof. reflexivity. Qed.

(** All certificates invalidated while the legacy relation alone is present. *)
Lemma all_certificate_invalidated_then_reconcile_witness :
  exists self1 self',
    _reconcile legacy_only = Returned tt self1
    /\ _on_all_certificate_invalidated legacy_only = Returned tt self'
    /\ issued legacy_only self'
       = tls_all_certificate_invalidated :: issued legacy_only self1
    /\ unit_status self' = unit_status self1.
Proof.
  apply (all_certificate_invalidated_then_reconcile legacy_only deployed_config).
  reflexivity.
Defined.

(** A backend becomes available with no hostname configured. *)
Lemma http_backend_available_builds_legacy_witness :
  _on_http_backend_available legacy_only = Returned tt legacy_built.
Proof.
  apply (http_backend_available_builds_legacy legacy_only deployed_config);
    reflexivity.
Defined.
